(** * SimpleMicroservices: the Course / Enrollment core of [main.py]

    A shallow embedding of the in-memory stores of [main.py] and of the
    endpoint functions that write to them, together with the Pydantic models
    of [models/course.py] and [models/enrollment.py].

    - Python [dict]s keyed by [UUID] are [gmap]s (no property below depends
      on insertion order).
    - An endpoint is a computation in a small state-and-exception monad over
      the three stores; [raise] keeps whatever was written before it, as a
      Python exception does.
    - The values produced by default factories ([uuid4], [datetime.utcnow])
      are inputs of the call. *)

From stdpp Require Import gmap strings list fin_maps.
From Stdlib Require Import ZArith Lia.

Local Open Scope string_scope.
Local Open Scope Z_scope.

(** ** Scalar types *)

(** [uuid.UUID]: a 128-bit value. *)
Abbreviation UUID := N (only parsing).
(** [datetime.date], [datetime.datetime] and [decimal.Decimal] are carried
    around and never inspected by the endpoints: their text form. *)
Definition date : Type := string.
Definition datetime : Type := string.
Definition Decimal : Type := string.

(** A field of an update model ([Optional[T] = None] read back with
    [model_dump(exclude_unset=True)]): the key is absent from the dump
    ([Unset]), or present with [None], or present with a value. *)
Inductive Field (T : Type) : Type :=
| Unset : Field T
| SetNone : Field T
| SetTo : T → Field T.
Arguments Unset {T}.
Arguments SetNone {T}.
Arguments SetTo {T} _.

(** [stored.update(dump)] followed by validation of a field declared [T]
    (not optional): [None] is a validation error. *)
Definition merge_required {T} (old : T) (f : Field T) : option T :=
  match f with
  | Unset => Some old
  | SetNone => None
  | SetTo v => Some v
  end.

(** The same for a field declared [Optional[T]]: [None] is accepted. *)
Definition merge_optional {T} (old : option T) (f : Field T) : option T :=
  match f with
  | Unset => old
  | SetNone => None
  | SetTo v => Some v
  end.

(** [x is not None] on an update field read as an attribute: an unset
    field has its default [None]. *)
Definition field_value {T} (f : Field T) : option T :=
  match f with
  | SetTo v => Some v
  | _ => None
  end.

(** ** models/course.py *)

Module CourseCreate.
(** [CourseCreate(CourseBase)]: every field of [CourseBase], [id] and
    [current_enrollment] included. *)
Record t : Type := mk {
  id : UUID;
  code : string;
  title : string;
  description : option string;
  credits : Z;
  department : string;
  instructor : option string;
  semester : string;
  start_date : option date;
  end_date : option date;
  max_enrollment : option Z;
  current_enrollment : Z;
  tuition_fee : option Decimal;
  prerequisites : list string;
  is_active : bool
}.

(** The numeric field constraints ([ge], [le]) Pydantic checks before the
    endpoint runs. *)
Definition valid (c : t) : Prop :=
  1 ≤ credits c ≤ 6 ∧
  (∀ m, max_enrollment c = Some m → 1 ≤ m) ∧
  0 ≤ current_enrollment c.
End CourseCreate.

Module CourseRead.
(** [CourseRead(CourseBase)]: adds [created_at] and [updated_at]. *)
Record t : Type := mk {
  id : UUID;
  code : string;
  title : string;
  description : option string;
  credits : Z;
  department : string;
  instructor : option string;
  semester : string;
  start_date : option date;
  end_date : option date;
  max_enrollment : option Z;
  current_enrollment : Z;
  tuition_fee : option Decimal;
  prerequisites : list string;
  is_active : bool;
  created_at : datetime;
  updated_at : datetime
}.

(** Attribute assignment [course.current_enrollment = n]. *)
Definition set_current_enrollment (n : Z) (c : t) : t :=
  mk (id c) (code c) (title c) (description c) (credits c) (department c)
     (instructor c) (semester c) (start_date c) (end_date c)
     (max_enrollment c) n (tuition_fee c) (prerequisites c) (is_active c)
     (created_at c) (updated_at c).

Definition valid (c : t) : Prop :=
  1 ≤ credits c ≤ 6 ∧
  (∀ m, max_enrollment c = Some m → 1 ≤ m) ∧
  0 ≤ current_enrollment c.
End CourseRead.

Module CourseUpdate.
(** [CourseUpdate(BaseModel)]: thirteen optional fields; there is no [id],
    no [current_enrollment] and no timestamp, and unknown keys of the
    request body are ignored by the model. *)
Record t : Type := mk {
  code : Field string;
  title : Field string;
  description : Field string;
  credits : Field Z;
  department : Field string;
  instructor : Field string;
  semester : Field string;
  start_date : Field date;
  end_date : Field date;
  max_enrollment : Field Z;
  tuition_fee : Field Decimal;
  prerequisites : Field (list string);
  is_active : Field bool
}.

Definition field_ok (P : Z → Prop) (f : Field Z) : Prop :=
  ∀ v, f = SetTo v → P v.

Definition valid (u : t) : Prop :=
  field_ok (λ v, 1 ≤ v ≤ 6) (credits u) ∧
  field_ok (λ v, 1 ≤ v) (max_enrollment u).

(** The payload with no field set. *)
Definition empty : t :=
  mk Unset Unset Unset Unset Unset Unset Unset Unset Unset Unset Unset
     Unset Unset.
End CourseUpdate.

(** ** models/enrollment.py *)

Inductive EnrollmentStatus : Type :=
| PENDING | ACTIVE | DROPPED | COMPLETED | WITHDRAWN.

Module EnrollmentCreate.
(** [EnrollmentCreate(EnrollmentBase)]: no [id] field. *)
Record t : Type := mk {
  student_uni : string;
  course_id : UUID;
  enrollment_date : date;
  status : EnrollmentStatus;
  grade : option string;
  credits_earned : option Z;
  tuition_paid : option Decimal;
  payment_date : option date;
  completion_date : option date;
  withdrawal_date : option date;
  notes : option string
}.
End EnrollmentCreate.

Module EnrollmentRead.
Record t : Type := mk {
  student_uni : string;
  course_id : UUID;
  enrollment_date : date;
  status : EnrollmentStatus;
  grade : option string;
  credits_earned : option Z;
  tuition_paid : option Decimal;
  payment_date : option date;
  completion_date : option date;
  withdrawal_date : option date;
  notes : option string;
  id : UUID;
  created_at : datetime;
  updated_at : datetime
}.
End EnrollmentRead.

Module EnrollmentUpdate.
(** [EnrollmentUpdate(BaseModel)]: ten optional fields; no
    [enrollment_date], no [id]. *)
Record t : Type := mk {
  student_uni : Field string;
  course_id : Field UUID;
  status : Field EnrollmentStatus;
  grade : Field string;
  credits_earned : Field Z;
  tuition_paid : Field Decimal;
  payment_date : Field date;
  completion_date : Field date;
  withdrawal_date : Field date;
  notes : Field string
}.

Definition empty : t :=
  mk Unset Unset Unset Unset Unset Unset Unset Unset Unset Unset.
End EnrollmentUpdate.

(** ** models/person.py *)

Module PersonRead.
(** Modelled from the spec: [models/person.py] is not among the sources.
    The spec gives a Person an opaque unique identifier and a university
    identifier; the endpoints below read nothing else of it. *)
Record t : Type := mk {
  id : UUID;
  uni : string
}.
End PersonRead.

(** ** main.py: the stores *)

(** The module-level dictionaries [persons], [courses] and [enrollments].
    ([addresses] is written and read by the Address endpoints only.) *)
Record Store : Type := mkStore {
  persons : gmap UUID PersonRead.t;
  courses : gmap UUID CourseRead.t;
  enrollments : gmap UUID EnrollmentRead.t
}.

Definition empty_store : Store := mkStore ∅ ∅ ∅.

(** What an endpoint raises: [HTTPException(status_code, detail)], the
    [pydantic.ValidationError] of a model constructor, or the [KeyError] of
    indexing a dictionary at a missing key. *)
Inductive Exception : Type :=
| HTTPException (status_code : Z) (detail : string)
| ValidationError
| KeyError.

Inductive Outcome (A : Type) : Type :=
| Raised (e : Exception)
| Returned (a : A).
Arguments Raised {A} e.
Arguments Returned {A} a.

(** The error kinds of the spec, as the exceptions the code raises. *)
Definition NotFoundError (what : string) : Exception :=
  HTTPException 404 (what ++ " not found").
Definition ReferenceError (what : string) : Exception :=
  HTTPException 400 (what ++ " not found").
Definition PreconditionError : Exception :=
  HTTPException 400 "Course is not active".
Definition CapacityError : Exception :=
  HTTPException 400 "Course enrollment is full".

(** ** The endpoint monad *)

Definition M (A : Type) : Type := Store → Outcome A * Store.

#[global] Instance M_ret : MRet M := λ A a st, (Returned a, st).
#[global] Instance M_bind : MBind M := λ A B f m st,
  match m st with
  | (Returned a, st') => f a st'
  | (Raised e, st') => (Raised e, st')
  end.

Definition raise {A} (e : Exception) : M A := λ st, (Raised e, st).
Definition gets {A} (f : Store → A) : M A := λ st, (Returned (f st), st).
Definition modify (f : Store → Store) : M unit := λ st, (Returned tt, f st).

(** [if cond: raise e] *)
Definition raise_if (cond : bool) (e : Exception) : M unit :=
  if cond then raise e else mret tt.

(** [k in d] *)
Definition member {A} (k : UUID) (d : gmap UUID A) : bool :=
  bool_decide (is_Some (d !! k)).

(** [d[k]] read from the store *)
Definition getitem {A} (f : Store → gmap UUID A) (k : UUID) : M A :=
  λ st, match f st !! k with
        | Some v => (Returned v, st)
        | None => (Raised KeyError, st)
        end.

(** [persons[k] = v], [courses[k] = v], [enrollments[k] = v] *)
Definition set_person (k : UUID) (v : PersonRead.t) : M unit :=
  modify (λ st, mkStore (<[k := v]> (persons st)) (courses st) (enrollments st)).
Definition set_course (k : UUID) (v : CourseRead.t) : M unit :=
  modify (λ st, mkStore (persons st) (<[k := v]> (courses st)) (enrollments st)).
Definition set_enrollment (k : UUID) (v : EnrollmentRead.t) : M unit :=
  modify (λ st, mkStore (persons st) (courses st) (<[k := v]> (enrollments st))).
(** [del courses[k]], [del enrollments[k]] *)
Definition del_course (k : UUID) : M unit :=
  modify (λ st, mkStore (persons st) (delete k (courses st)) (enrollments st)).
Definition del_enrollment (k : UUID) : M unit :=
  modify (λ st, mkStore (persons st) (courses st) (delete k (enrollments st))).

(** The values the default factories return during one call: [uuid4()] for
    an [id] the payload does not carry, [datetime.utcnow()] for
    [created_at] and for [updated_at]. *)
Record Defaults : Type := mkDefaults {
  uuid4 : UUID;
  utcnow_created : datetime;
  utcnow_updated : datetime
}.

(** ** main.py: Person endpoints *)

(** [create_person]: [persons[person_read.id] = person_read].  The record
    built from the payload is the argument ([PersonCreate] is in the missing
    [models/person.py]). *)
Definition create_person (person_read : PersonRead.t) : M PersonRead.t :=
  set_person (PersonRead.id person_read) person_read;;
  mret person_read.

(** [any(p.uni == uni for p in persons.values())] *)
Definition any_uni (uni : string) (ps : gmap UUID PersonRead.t) : bool :=
  bool_decide (map_Exists (λ _ p, PersonRead.uni p = uni) ps).

(** The spec's "some stored Person's university identifier equals [uni]". *)
Definition student_known (uni : string) (st : Store) : Prop :=
  ∃ k p, persons st !! k = Some p ∧ PersonRead.uni p = uni.

(** ** main.py: Course endpoints *)

(** [CourseRead] built from the keywords of [course.model_dump()]: the payload's fields, [id]
    included, and the two timestamps from their default factories. *)
Definition CourseRead_of_dump (course : CourseCreate.t) (d : Defaults)
  : CourseRead.t :=
  CourseRead.mk
    (CourseCreate.id course) (CourseCreate.code course)
    (CourseCreate.title course) (CourseCreate.description course)
    (CourseCreate.credits course) (CourseCreate.department course)
    (CourseCreate.instructor course) (CourseCreate.semester course)
    (CourseCreate.start_date course) (CourseCreate.end_date course)
    (CourseCreate.max_enrollment course)
    (CourseCreate.current_enrollment course)
    (CourseCreate.tuition_fee course) (CourseCreate.prerequisites course)
    (CourseCreate.is_active course)
    (utcnow_created d) (utcnow_updated d).

(** [CourseRead] built from [id=course_id] and the keywords of
    [course.model_dump(exclude={"id"})] *)
Definition CourseRead_with_id (course_id : UUID) (course : CourseCreate.t)
    (d : Defaults) : CourseRead.t :=
  CourseRead.mk
    course_id (CourseCreate.code course)
    (CourseCreate.title course) (CourseCreate.description course)
    (CourseCreate.credits course) (CourseCreate.department course)
    (CourseCreate.instructor course) (CourseCreate.semester course)
    (CourseCreate.start_date course) (CourseCreate.end_date course)
    (CourseCreate.max_enrollment course)
    (CourseCreate.current_enrollment course)
    (CourseCreate.tuition_fee course) (CourseCreate.prerequisites course)
    (CourseCreate.is_active course)
    (utcnow_created d) (utcnow_updated d).

(** [stored = courses[course_id].model_dump();
     stored.update(update.model_dump(exclude_unset=True));
     CourseRead] applied to the keywords of [stored]: [None] when the constructor rejects the merged
    dictionary.  The keys [id], [current_enrollment], [created_at] and
    [updated_at] are never in the dump of a [CourseUpdate].  The
    constructor's numeric constraints are met by construction, every value
    coming from a validated payload or from a stored record (see
    [CourseRead_merge_valid]); what it can reject is [None] for a field
    that is not optional. *)
Definition CourseRead_merge (stored : CourseRead.t) (update : CourseUpdate.t)
  : option CourseRead.t :=
  code ← merge_required (CourseRead.code stored) (CourseUpdate.code update);
  title ← merge_required (CourseRead.title stored) (CourseUpdate.title update);
  credits ← merge_required (CourseRead.credits stored)
              (CourseUpdate.credits update);
  department ← merge_required (CourseRead.department stored)
                 (CourseUpdate.department update);
  semester ← merge_required (CourseRead.semester stored)
               (CourseUpdate.semester update);
  prerequisites ← merge_required (CourseRead.prerequisites stored)
                    (CourseUpdate.prerequisites update);
  is_active ← merge_required (CourseRead.is_active stored)
                (CourseUpdate.is_active update);
  Some (CourseRead.mk
    (CourseRead.id stored) code title
    (merge_optional (CourseRead.description stored)
       (CourseUpdate.description update))
    credits department
    (merge_optional (CourseRead.instructor stored)
       (CourseUpdate.instructor update))
    semester
    (merge_optional (CourseRead.start_date stored)
       (CourseUpdate.start_date update))
    (merge_optional (CourseRead.end_date stored)
       (CourseUpdate.end_date update))
    (merge_optional (CourseRead.max_enrollment stored)
       (CourseUpdate.max_enrollment update))
    (CourseRead.current_enrollment stored)
    (merge_optional (CourseRead.tuition_fee stored)
       (CourseUpdate.tuition_fee update))
    prerequisites is_active
    (CourseRead.created_at stored) (CourseRead.updated_at stored)).

Definition create_course (course : CourseCreate.t) (d : Defaults)
  : M CourseRead.t :=
  let course_read := CourseRead_of_dump course d in
  set_course (CourseRead.id course_read) course_read;;
  mret course_read.

Definition get_course (course_id : UUID) : M CourseRead.t :=
  courses_ ← gets courses;
  raise_if (negb (member course_id courses_))
    (HTTPException 404 "Course not found");;
  getitem courses course_id.

Definition replace_course (course_id : UUID) (course : CourseCreate.t)
    (d : Defaults) : M CourseRead.t :=
  courses_ ← gets courses;
  raise_if (negb (member course_id courses_))
    (HTTPException 404 "Course not found");;
  set_course course_id (CourseRead_with_id course_id course d);;
  getitem courses course_id.

Definition update_course (course_id : UUID) (update : CourseUpdate.t)
  : M CourseRead.t :=
  courses_ ← gets courses;
  raise_if (negb (member course_id courses_))
    (HTTPException 404 "Course not found");;
  stored ← getitem courses course_id;
  match CourseRead_merge stored update with
  | None => raise ValidationError
  | Some merged =>
      set_course course_id merged;;
      getitem courses course_id
  end.

Definition delete_course (course_id : UUID) : M unit :=
  courses_ ← gets courses;
  raise_if (negb (member course_id courses_))
    (HTTPException 404 "Course not found");;
  del_course course_id.

(** ** main.py: Enrollment endpoints *)

(** [EnrollmentRead] built from the keywords of [enrollment.model_dump()]:
    the payload has no [id], so [id], [created_at] and [updated_at] all come
    from their default factories. *)
Definition EnrollmentRead_of_dump (enrollment : EnrollmentCreate.t)
    (d : Defaults) : EnrollmentRead.t :=
  EnrollmentRead.mk
    (EnrollmentCreate.student_uni enrollment)
    (EnrollmentCreate.course_id enrollment)
    (EnrollmentCreate.enrollment_date enrollment)
    (EnrollmentCreate.status enrollment)
    (EnrollmentCreate.grade enrollment)
    (EnrollmentCreate.credits_earned enrollment)
    (EnrollmentCreate.tuition_paid enrollment)
    (EnrollmentCreate.payment_date enrollment)
    (EnrollmentCreate.completion_date enrollment)
    (EnrollmentCreate.withdrawal_date enrollment)
    (EnrollmentCreate.notes enrollment)
    (uuid4 d) (utcnow_created d) (utcnow_updated d).

(** [EnrollmentRead] built from [id=enrollment_id] and the keywords of
    [enrollment.model_dump(exclude={"id"})] *)
Definition EnrollmentRead_with_id (enrollment_id : UUID)
    (enrollment : EnrollmentCreate.t) (d : Defaults) : EnrollmentRead.t :=
  EnrollmentRead.mk
    (EnrollmentCreate.student_uni enrollment)
    (EnrollmentCreate.course_id enrollment)
    (EnrollmentCreate.enrollment_date enrollment)
    (EnrollmentCreate.status enrollment)
    (EnrollmentCreate.grade enrollment)
    (EnrollmentCreate.credits_earned enrollment)
    (EnrollmentCreate.tuition_paid enrollment)
    (EnrollmentCreate.payment_date enrollment)
    (EnrollmentCreate.completion_date enrollment)
    (EnrollmentCreate.withdrawal_date enrollment)
    (EnrollmentCreate.notes enrollment)
    enrollment_id (utcnow_created d) (utcnow_updated d).

(** The merge of [update_enrollment]; [student_uni], [course_id] and
    [status] are not optional in [EnrollmentRead]. *)
Definition EnrollmentRead_merge (stored : EnrollmentRead.t)
    (update : EnrollmentUpdate.t) : option EnrollmentRead.t :=
  student_uni ← merge_required (EnrollmentRead.student_uni stored)
                  (EnrollmentUpdate.student_uni update);
  course_id ← merge_required (EnrollmentRead.course_id stored)
                (EnrollmentUpdate.course_id update);
  status ← merge_required (EnrollmentRead.status stored)
             (EnrollmentUpdate.status update);
  Some (EnrollmentRead.mk
    student_uni course_id
    (EnrollmentRead.enrollment_date stored)
    status
    (merge_optional (EnrollmentRead.grade stored)
       (EnrollmentUpdate.grade update))
    (merge_optional (EnrollmentRead.credits_earned stored)
       (EnrollmentUpdate.credits_earned update))
    (merge_optional (EnrollmentRead.tuition_paid stored)
       (EnrollmentUpdate.tuition_paid update))
    (merge_optional (EnrollmentRead.payment_date stored)
       (EnrollmentUpdate.payment_date update))
    (merge_optional (EnrollmentRead.completion_date stored)
       (EnrollmentUpdate.completion_date update))
    (merge_optional (EnrollmentRead.withdrawal_date stored)
       (EnrollmentUpdate.withdrawal_date update))
    (merge_optional (EnrollmentRead.notes stored)
       (EnrollmentUpdate.notes update))
    (EnrollmentRead.id stored)
    (EnrollmentRead.created_at stored) (EnrollmentRead.updated_at stored)).

(** [course.max_enrollment and
     course.current_enrollment >= course.max_enrollment]: [None] and [0]
    are falsy. *)
Definition enrollment_full (course : CourseRead.t) : bool :=
  match CourseRead.max_enrollment course with
  | None => false
  | Some m =>
      if m =? 0 then false else m <=? CourseRead.current_enrollment course
  end.

Definition create_enrollment (enrollment : EnrollmentCreate.t) (d : Defaults)
  : M EnrollmentRead.t :=
  persons_ ← gets persons;
  raise_if (negb (any_uni (EnrollmentCreate.student_uni enrollment) persons_))
    (HTTPException 400 "Student not found");;
  courses_ ← gets courses;
  raise_if (negb (member (EnrollmentCreate.course_id enrollment) courses_))
    (HTTPException 400 "Course not found");;
  course ← getitem courses (EnrollmentCreate.course_id enrollment);
  raise_if (negb (CourseRead.is_active course))
    (HTTPException 400 "Course is not active");;
  raise_if (enrollment_full course)
    (HTTPException 400 "Course enrollment is full");;
  let enrollment_read := EnrollmentRead_of_dump enrollment d in
  set_enrollment (EnrollmentRead.id enrollment_read) enrollment_read;;
  let course :=
    CourseRead.set_current_enrollment
      (CourseRead.current_enrollment course + 1) course in
  set_course (EnrollmentCreate.course_id enrollment) course;;
  mret enrollment_read.

Definition get_enrollment (enrollment_id : UUID) : M EnrollmentRead.t :=
  enrollments_ ← gets enrollments;
  raise_if (negb (member enrollment_id enrollments_))
    (HTTPException 404 "Enrollment not found");;
  getitem enrollments enrollment_id.

Definition replace_enrollment (enrollment_id : UUID)
    (enrollment : EnrollmentCreate.t) (d : Defaults) : M EnrollmentRead.t :=
  enrollments_ ← gets enrollments;
  raise_if (negb (member enrollment_id enrollments_))
    (HTTPException 404 "Enrollment not found");;
  courses_ ← gets courses;
  raise_if (negb (member (EnrollmentCreate.course_id enrollment) courses_))
    (HTTPException 400 "Course not found");;
  course ← getitem courses (EnrollmentCreate.course_id enrollment);
  raise_if (negb (CourseRead.is_active course))
    (HTTPException 400 "Course is not active");;
  raise_if (enrollment_full course)
    (HTTPException 400 "Course enrollment is full");;
  set_enrollment enrollment_id
    (EnrollmentRead_with_id enrollment_id enrollment d);;
  getitem enrollments enrollment_id.

Definition update_enrollment (enrollment_id : UUID)
    (update : EnrollmentUpdate.t) : M EnrollmentRead.t :=
  enrollments_ ← gets enrollments;
  raise_if (negb (member enrollment_id enrollments_))
    (HTTPException 404 "Enrollment not found");;
  match field_value (EnrollmentUpdate.course_id update) with
  | Some new_course_id =>
      courses_ ← gets courses;
      raise_if (negb (member new_course_id courses_))
        (HTTPException 400 "Course not found")
  | None => mret tt
  end;;
  stored ← getitem enrollments enrollment_id;
  match EnrollmentRead_merge stored update with
  | None => raise ValidationError
  | Some merged =>
      set_enrollment enrollment_id merged;;
      getitem enrollments enrollment_id
  end.

Definition delete_enrollment (enrollment_id : UUID) : M unit :=
  enrollments_ ← gets enrollments;
  raise_if (negb (member enrollment_id enrollments_))
    (HTTPException 404 "Enrollment not found");;
  enrollment ← getitem enrollments enrollment_id;
  courses_ ← gets courses;
  (if member (EnrollmentRead.course_id enrollment) courses_ then
     course ← getitem courses (EnrollmentRead.course_id enrollment);
     let course :=
       CourseRead.set_current_enrollment
         (Z.max 0 (CourseRead.current_enrollment course - 1)) course in
     set_course (EnrollmentRead.course_id enrollment) course
   else mret tt);;
  del_enrollment enrollment_id.

(** ** Requests and traces *)

(** One request to the service: the endpoint, its arguments and the values
    its default factories return. *)
Inductive Op : Type :=
| CreatePerson (person_read : PersonRead.t)
| CreateCourse (course : CourseCreate.t) (d : Defaults)
| GetCourse (course_id : UUID)
| ReplaceCourse (course_id : UUID) (course : CourseCreate.t) (d : Defaults)
| UpdateCourse (course_id : UUID) (update : CourseUpdate.t)
| DeleteCourse (course_id : UUID)
| CreateEnrollment (enrollment : EnrollmentCreate.t) (d : Defaults)
| GetEnrollment (enrollment_id : UUID)
| ReplaceEnrollment (enrollment_id : UUID) (enrollment : EnrollmentCreate.t)
    (d : Defaults)
| UpdateEnrollment (enrollment_id : UUID) (update : EnrollmentUpdate.t)
| DeleteEnrollment (enrollment_id : UUID).

Inductive Response : Type :=
| PersonBody (p : PersonRead.t)
| CourseBody (c : CourseRead.t)
| EnrollmentBody (e : EnrollmentRead.t)
| NoContent.

Definition respond {A} (body : A → Response) (m : M A) : M Response :=
  a ← m; mret (body a).

Definition step (op : Op) : M Response :=
  match op with
  | CreatePerson p => respond PersonBody (create_person p)
  | CreateCourse c d => respond CourseBody (create_course c d)
  | GetCourse k => respond CourseBody (get_course k)
  | ReplaceCourse k c d => respond CourseBody (replace_course k c d)
  | UpdateCourse k u => respond CourseBody (update_course k u)
  | DeleteCourse k => respond (λ _, NoContent) (delete_course k)
  | CreateEnrollment e d => respond EnrollmentBody (create_enrollment e d)
  | GetEnrollment k => respond EnrollmentBody (get_enrollment k)
  | ReplaceEnrollment k e d =>
      respond EnrollmentBody (replace_enrollment k e d)
  | UpdateEnrollment k u => respond EnrollmentBody (update_enrollment k u)
  | DeleteEnrollment k => respond (λ _, NoContent) (delete_enrollment k)
  end.

(** The store after a sequence of requests, each run to completion. *)
Fixpoint run (ops : list Op) (st : Store) : Store :=
  match ops with
  | [] => st
  | op :: ops' => run ops' (step op st).2
  end.

Definition succeeded {A} (r : Outcome A * Store) : bool :=
  match r.1 with
  | Returned _ => true
  | Raised _ => false
  end.

(** The stored counter of a course, if the course is stored. *)
Definition counter (C : UUID) (st : Store) : option Z :=
  CourseRead.current_enrollment <$> courses st !! C.

(** ** Concrete data for the examples *)

Definition d0 (k : UUID) : Defaults := mkDefaults k "t0" "t0".

Definition course_payload (k : UUID) (max : option Z) (cur : Z) (active : bool)
  : CourseCreate.t :=
  CourseCreate.mk k "CS101" "Introduction to Computer Science" None 3
    "Computer Science" None "Fall 2024" None None max cur None [] active.

Definition enrollment_payload (uni : string) (course_id : UUID)
  : EnrollmentCreate.t :=
  EnrollmentCreate.mk uni course_id "2024-08-15" PENDING None None None None
    None None None.

Definition alice : PersonRead.t := PersonRead.mk 1%N "abc1234".


(** ** Counting *)

(** The stored enrollment [kv] references course [C]. *)
Definition references (C : UUID) (kv : UUID * EnrollmentRead.t) : Prop :=
  EnrollmentRead.course_id kv.2 = C.

#[global] Instance references_dec C kv : Decision (references C kv).
Proof. unfold references. apply _. Defined.

(** The number of stored enrollments whose [course_id] is [C]. *)
Definition count_refs (C : UUID) (es : gmap UUID EnrollmentRead.t) : Z :=
  Z.of_nat (size (filter (references C) es)).

(** [1] if the stored enrollment [k] references [C], else [0]. *)
Definition refs_at (C : UUID) (k : UUID) (es : gmap UUID EnrollmentRead.t)
  : Z :=
  match es !! k with
  | Some e => if decide (EnrollmentRead.course_id e = C) then 1 else 0
  | None => 0
  end.

(** [1] when [op] is a [create_enrollment] that succeeds on [st] with a
    payload referencing [C], else [0]. *)
Definition created (C : UUID) (op : Op) (st : Store) : Z :=
  match op with
  | CreateEnrollment e _ =>
      if succeeded (step op st)
         && bool_decide (EnrollmentCreate.course_id e = C)
      then 1 else 0
  | _ => 0
  end.

(** [1] when [op] is a [delete_enrollment] that succeeds on [st] and the
    record it deletes references [C], else [0]. *)
Definition deleted (C : UUID) (op : Op) (st : Store) : Z :=
  match op with
  | DeleteEnrollment k =>
      if succeeded (step op st) then refs_at C k (enrollments st) else 0
  | _ => 0
  end.

(** The successful creations referencing [C], and the successful deletions
    of records referencing [C], along the run of [ops] from [st]. *)
Fixpoint creates_ok (C : UUID) (ops : list Op) (st : Store) : Z :=
  match ops with
  | [] => 0
  | op :: ops' => created C op st + creates_ok C ops' (step op st).2
  end.

Fixpoint deletes_ok (C : UUID) (ops : list Op) (st : Store) : Z :=
  match ops with
  | [] => 0
  | op :: ops' => deleted C op st + deletes_ok C ops' (step op st).2
  end.

(** A request that neither writes the Course record [C] as a whole nor
    moves an enrollment from one course to another. *)
Definition keeps_sync (C : UUID) (op : Op) : Prop :=
  match op with
  | CreateCourse c _ => CourseCreate.id c ≠ C
  | ReplaceCourse k _ _ => k ≠ C
  | DeleteCourse k => k ≠ C
  | ReplaceEnrollment _ _ _ => False
  | UpdateEnrollment _ u => field_value (EnrollmentUpdate.course_id u) = None
  | _ => True
  end.

(** The requests that address the Course resource directly. *)
Definition course_op (op : Op) : bool :=
  match op with
  | CreateCourse _ _ | GetCourse _ | ReplaceCourse _ _ _
  | UpdateCourse _ _ | DeleteCourse _ => true
  | _ => false
  end.

(** ** The statements that do not hold, as propositions *)


(** "After an enrollment of course [A] is moved to course [B] by partial
    update and then deleted, [B]'s counter is one less and [A]'s counter is
    one more than the number of enrollments referencing [A]." *)
Definition move_then_delete_decrements : Prop :=
  ∀ (st : Store) (enrollment_id A B : UUID)
    (stored merged : EnrollmentRead.t) (cA cB : CourseRead.t)
    (update : EnrollmentUpdate.t),
    enrollments st !! enrollment_id = Some stored →
    EnrollmentRead.course_id stored = A →
    A ≠ B →
    courses st !! A = Some cA →
    courses st !! B = Some cB →
    EnrollmentUpdate.course_id update = SetTo B →
    EnrollmentRead_merge stored update = Some merged →
    ∃ st1 st2,
      update_enrollment enrollment_id update st = (Returned merged, st1) ∧
      counter A st1 = Some (CourseRead.current_enrollment cA) ∧
      counter B st1 = Some (CourseRead.current_enrollment cB) ∧
      delete_enrollment enrollment_id st1 = (Returned tt, st2) ∧
      counter B st2 = Some (CourseRead.current_enrollment cB - 1) ∧
      counter A st2 = Some (CourseRead.current_enrollment cA) ∧
      counter A st2 = Some (count_refs A (enrollments st2) + 1).

(** "For every course and every sequence of operations, the counter equals
    successful creations minus successful deletions, floored at zero." *)
Definition counter_is_creates_minus_deletes : Prop :=
  ∀ (C : UUID) (ops : list Op) (n : Z),
    counter C (run ops empty_store) = Some n →
    n = Z.max 0 (creates_ok C ops empty_store - deletes_ok C ops empty_store).

(** "No direct Course operation ever changes the stored value of
    [current_enrollment]." *)
Definition course_ops_keep_counter : Prop :=
  ∀ (st : Store) (op : Op) (C : UUID) (n n' : Z),
    course_op op = true →
    counter C st = Some n →
    counter C (step op st).2 = Some n' →
    n' = n.

(** "Some partial update of an existing Course overwrites the stored
    [current_enrollment]." *)
Definition patch_can_overwrite_counter : Prop :=
  ∃ (st st' : Store) (k : UUID) (update : CourseUpdate.t)
    (merged : CourseRead.t) (n n' : Z),
    update_course k update st = (Returned merged, st') ∧
    counter k st = Some n ∧
    counter k st' = Some n' ∧
    n' ≠ n.

(** ** More concrete data *)

Definition course_A : UUID := 10%N.
Definition course_B : UUID := 11%N.

(** One person and two active courses, [course_A] with room for thirty. *)
Definition st_courses : Store :=
  run [CreatePerson alice;
       CreateCourse (course_payload course_A (Some 30) 0 true) (d0 0%N);
       CreateCourse (course_payload course_B None 0 true) (d0 0%N)]
    empty_store.

(** ... and one enrollment, [100], of [abc1234] in [course_A]. *)
Definition st_enrolled : Store :=
  run [CreateEnrollment (enrollment_payload "abc1234" course_A) (d0 100%N)]
    st_courses.

(** A second course payload, with the defaults of an omitted
    [current_enrollment] and [is_active]. *)
Definition calculus (k : UUID) : CourseCreate.t :=
  CourseCreate.mk k "MATH2001" "Calculus I" None 4 "Mathematics" None
    "Spring 2025" None None (Some 40) 0 None [] true.

(** The partial update that moves an enrollment to [course_B]. *)
Definition move_to_B : EnrollmentUpdate.t :=
  EnrollmentUpdate.mk Unset (SetTo course_B) Unset Unset Unset Unset Unset
    Unset Unset Unset.

(** Enroll in [course_A], move the enrollment to [course_B], delete it, then
    enroll in [course_B]. *)
Definition moved_trace : list Op :=
  [CreatePerson alice;
   CreateCourse (course_payload course_A None 0 true) (d0 0%N);
   CreateCourse (course_payload course_B None 0 true) (d0 0%N);
   CreateEnrollment (enrollment_payload "abc1234" course_A) (d0 100%N);
   UpdateEnrollment 100%N move_to_B;
   DeleteEnrollment 100%N;
   CreateEnrollment (enrollment_payload "abc1234" course_B) (d0 101%N)].

(** ** Field constraints of the payloads *)

(** The request bodies of [op] satisfy the numeric constraints of their
    models (FastAPI validates a body before the endpoint runs). *)
Definition op_valid (op : Op) : Prop :=
  match op with
  | CreateCourse c _ => CourseCreate.valid c
  | ReplaceCourse _ c _ => CourseCreate.valid c
  | UpdateCourse _ u => CourseUpdate.valid u
  | _ => True
  end.

(** Every stored course satisfies the constraints of [CourseRead]. *)
Definition courses_valid (st : Store) : Prop :=
  map_Forall (λ _ c, CourseRead.valid c) (courses st).

(** ** Stores and records of the worked examples *)

(** The stored form of [course_payload]. *)
Definition course_record (k : UUID) (max : option Z) (cur : Z) (active : bool)
  : CourseRead.t :=
  CourseRead.set_current_enrollment cur
    (CourseRead_of_dump (course_payload k max 0 active) (d0 0%N)).

(** The stored form of [enrollment_payload] under identifier [k]. *)
Definition enrollment_record (k : UUID) (uni : string) (course_id : UUID)
  : EnrollmentRead.t :=
  EnrollmentRead_of_dump (enrollment_payload uni course_id) (d0 k).

(** One person, one course with a single seat, taken by enrollment [100]. *)
Definition st_full : Store :=
  run [CreatePerson alice;
       CreateCourse (course_payload course_A (Some 1) 0 true) (d0 0%N);
       CreateEnrollment (enrollment_payload "abc1234" course_A) (d0 100%N)]
    empty_store.

(** One person and one course that is not active. *)
Definition st_inactive : Store :=
  run [CreatePerson alice;
       CreateCourse (course_payload course_A None 0 false) (d0 0%N)]
    empty_store.

(** A partial update of a Course: close it and drop its capacity. *)
Definition close_course : CourseUpdate.t :=
  CourseUpdate.mk Unset Unset Unset Unset Unset Unset Unset Unset Unset
    SetNone Unset Unset (SetTo false).

(** A partial update of a Course that only clears its capacity. *)
Definition lift_capacity : CourseUpdate.t :=
  CourseUpdate.mk Unset Unset Unset Unset Unset Unset Unset Unset Unset
    SetNone Unset Unset Unset.

(** A partial update of an Enrollment that leaves [course_id] alone. *)
Definition mark_active : EnrollmentUpdate.t :=
  EnrollmentUpdate.mk Unset Unset (SetTo ACTIVE) Unset Unset Unset Unset
    Unset Unset Unset.

(** Two enrollments in [course_A], a status change, a Course update, a
    deletion, and a deletion of an identifier that is not stored. *)
Definition sync_trace : list Op :=
  [CreateEnrollment (enrollment_payload "abc1234" course_A) (d0 100%N);
   CreateEnrollment (enrollment_payload "abc1234" course_A) (d0 101%N);
   UpdateEnrollment 100%N mark_active;
   UpdateCourse course_A close_course;
   DeleteEnrollment 100%N;
   DeleteEnrollment 555%N;
   CreateEnrollment (enrollment_payload "abc1234" course_A) (d0 102%N)].

(** ** main.py: cross-resource endpoints *)

(** [list(d.values())].  Python iterates a dictionary in insertion order; a
    [gmap] keeps no such order, so the list is the stored records in the
    order of the model, and only facts that do not depend on the order are
    stated about it. *)
Definition values {A} (d : gmap UUID A) : list A := (map_to_list d).*2.

(** [[e for e in enrollments.values() if e.student_uni == student_uni]] *)
Definition enrollments_of_student (student_uni : string)
    (es : gmap UUID EnrollmentRead.t) : list EnrollmentRead.t :=
  filter (λ e, EnrollmentRead.student_uni e = student_uni) (values es).

Definition get_student_enrollments (student_uni : string)
  : M (list EnrollmentRead.t) :=
  persons_ ← gets persons;
  raise_if (negb (any_uni student_uni persons_))
    (HTTPException 404 "Student not found");;
  enrollments_ ← gets enrollments;
  mret (enrollments_of_student student_uni enrollments_).

Definition get_course_enrollments (course_id : UUID)
  : M (list EnrollmentRead.t) :=
  courses_ ← gets courses;
  raise_if (negb (member course_id courses_))
    (HTTPException 404 "Course not found");;
  enrollments_ ← gets enrollments;
  mret (filter (λ e, EnrollmentRead.course_id e = course_id)
          (values enrollments_)).

(** [[courses[cid] for cid in course_ids if cid in courses]]: the
    identifiers that are not keys of [courses] are skipped. *)
Definition get_student_courses (student_uni : string)
  : M (list CourseRead.t) :=
  persons_ ← gets persons;
  raise_if (negb (any_uni student_uni persons_))
    (HTTPException 404 "Student not found");;
  enrollments_ ← gets enrollments;
  let student_enrollments := enrollments_of_student student_uni enrollments_ in
  let course_ids := EnrollmentRead.course_id <$> student_enrollments in
  courses_ ← gets courses;
  mret (omap (λ cid, courses_ !! cid) course_ids).

(** ** Invariants of the stores *)

(** Every stored course and every stored enrollment carries the key it is
    stored under as its [id]. *)
Definition keys_match_ids (st : Store) : Prop :=
  map_Forall (λ k c, CourseRead.id c = k) (courses st) ∧
  map_Forall (λ k e, EnrollmentRead.id e = k) (enrollments st).

(** No stored course is above its capacity. *)
Definition within_capacity (st : Store) : Prop :=
  map_Forall
    (λ _ c, ∀ m, CourseRead.max_enrollment c = Some m →
                 CourseRead.current_enrollment c ≤ m)
    (courses st).

(** The requests that write a Course record from a request body. *)
Definition writes_course (op : Op) : bool :=
  match op with
  | CreateCourse _ _ | ReplaceCourse _ _ _ | UpdateCourse _ _ => true
  | _ => false
  end.

(** No field that [CourseRead] requires is set to [None] in the payload. *)
Definition course_update_accepted (u : CourseUpdate.t) : Prop :=
  CourseUpdate.code u ≠ SetNone ∧ CourseUpdate.title u ≠ SetNone ∧
  CourseUpdate.credits u ≠ SetNone ∧ CourseUpdate.department u ≠ SetNone ∧
  CourseUpdate.semester u ≠ SetNone ∧
  CourseUpdate.prerequisites u ≠ SetNone ∧
  CourseUpdate.is_active u ≠ SetNone.

(** The same for [EnrollmentRead]. *)
Definition enrollment_update_accepted (u : EnrollmentUpdate.t) : Prop :=
  EnrollmentUpdate.student_uni u ≠ SetNone ∧
  EnrollmentUpdate.course_id u ≠ SetNone ∧
  EnrollmentUpdate.status u ≠ SetNone.

(** The payload [c] with its [id] replaced by [k]. *)
Definition CourseCreate_with_id (k : UUID) (c : CourseCreate.t)
  : CourseCreate.t :=
  CourseCreate.mk k (CourseCreate.code c) (CourseCreate.title c)
    (CourseCreate.description c) (CourseCreate.credits c)
    (CourseCreate.department c) (CourseCreate.instructor c)
    (CourseCreate.semester c) (CourseCreate.start_date c)
    (CourseCreate.end_date c) (CourseCreate.max_enrollment c)
    (CourseCreate.current_enrollment c) (CourseCreate.tuition_fee c)
    (CourseCreate.prerequisites c) (CourseCreate.is_active c).

(** ** main.py: the list endpoints of Course and Enrollment *)

#[global] Instance EnrollmentStatus_eq_dec : EqDecision EnrollmentStatus.
Proof. solve_decision. Defined.

(** [if param is not None: results = [x for x in results if test]] *)
Definition keep_if {A P} (param : option P) (test : P → A → bool)
    (results : list A) : list A :=
  match param with
  | Some p => filter (λ x, Is_true (test p x)) results
  | None => results
  end.

Section Listing.

(** [haystack.lower().find(needle.lower()) != -1], the case-insensitive
    substring test of the filters; [str.lower] is taken as given. *)
Variable icontains : string → string → bool.

(** [c.instructor and c.instructor.lower().find(...) != -1]: a course whose
    instructor is [None] or the empty string does not pass. *)
Definition instructor_matches (instructor : string) (c : CourseRead.t)
  : bool :=
  match CourseRead.instructor c with
  | None => false
  | Some i => if decide (i = "") then false else icontains i instructor
  end.

Definition list_courses (code title department instructor semester
    : option string) (is_active : option bool)
    (min_credits max_credits : option Z) : M (list CourseRead.t) :=
  courses_ ← gets courses;
  let results := values courses_ in
  let results :=
    keep_if code (λ code c, bool_decide (CourseRead.code c = code)) results in
  let results :=
    keep_if title (λ title c, icontains (CourseRead.title c) title) results in
  let results :=
    keep_if department
      (λ department c, icontains (CourseRead.department c) department)
      results in
  let results := keep_if instructor instructor_matches results in
  let results :=
    keep_if semester
      (λ semester c, icontains (CourseRead.semester c) semester) results in
  let results :=
    keep_if is_active
      (λ is_active c, bool_decide (CourseRead.is_active c = is_active))
      results in
  let results :=
    keep_if min_credits
      (λ min_credits c, min_credits <=? CourseRead.credits c) results in
  let results :=
    keep_if max_credits
      (λ max_credits c, CourseRead.credits c <=? max_credits) results in
  mret results.

(** [e.course_id in courses and
     courses[e.course_id].field.lower().find(...) != -1] *)
Definition course_field_matches (courses_ : gmap UUID CourseRead.t)
    (field : CourseRead.t → string) (needle : string)
    (e : EnrollmentRead.t) : bool :=
  match courses_ !! EnrollmentRead.course_id e with
  | Some c => icontains (field c) needle
  | None => false
  end.

Definition list_enrollments (student_uni : option string)
    (course_id : option UUID) (status : option EnrollmentStatus)
    (semester department : option string) : M (list EnrollmentRead.t) :=
  enrollments_ ← gets enrollments;
  courses_ ← gets courses;
  let results := values enrollments_ in
  let results :=
    keep_if student_uni
      (λ uni e, bool_decide (EnrollmentRead.student_uni e = uni)) results in
  let results :=
    keep_if course_id
      (λ cid e, bool_decide (EnrollmentRead.course_id e = cid)) results in
  let results :=
    keep_if status
      (λ status e, bool_decide (EnrollmentRead.status e = status))
      results in
  let results :=
    keep_if semester (course_field_matches courses_ CourseRead.semester)
      results in
  let results :=
    keep_if department (course_field_matches courses_ CourseRead.department)
      results in
  mret results.

End Listing.

(** ** main.py: Address endpoints *)

Section Address.

(** [models/address.py] is not among the sources: the three models, the
    [id] of a creation payload, the constructor applied to a payload's dump
    and the merge of a partial update are taken as given. *)
Variables AddressCreate AddressRead AddressUpdate : Type.
Variable AddressCreate_id : AddressCreate → UUID.
Variable AddressRead_of_dump : AddressCreate → Defaults → AddressRead.
Variable AddressRead_merge : AddressRead → AddressUpdate → option AddressRead.

(** The Address endpoints read and write the dictionary [addresses] only. *)
Definition AddressM (A : Type) : Type :=
  gmap UUID AddressRead → Outcome A * gmap UUID AddressRead.

Definition create_address (address : AddressCreate) (d : Defaults)
  : AddressM AddressRead :=
  λ addresses,
  if member (AddressCreate_id address) addresses then
    (Raised (HTTPException 400 "Address with this ID already exists"),
     addresses)
  else
    let addresses :=
      <[AddressCreate_id address := AddressRead_of_dump address d]> addresses
    in
    match addresses !! AddressCreate_id address with
    | Some a => (Returned a, addresses)
    | None => (Raised KeyError, addresses)
    end.

Definition get_address (address_id : UUID) : AddressM AddressRead :=
  λ addresses,
  if negb (member address_id addresses) then
    (Raised (HTTPException 404 "Address not found"), addresses)
  else
    match addresses !! address_id with
    | Some a => (Returned a, addresses)
    | None => (Raised KeyError, addresses)
    end.

Definition update_address (address_id : UUID) (update : AddressUpdate)
  : AddressM AddressRead :=
  λ addresses,
  if negb (member address_id addresses) then
    (Raised (HTTPException 404 "Address not found"), addresses)
  else
    match addresses !! address_id with
    | None => (Raised KeyError, addresses)
    | Some stored =>
        match AddressRead_merge stored update with
        | None => (Raised ValidationError, addresses)
        | Some merged =>
            let addresses := <[address_id := merged]> addresses in
            match addresses !! address_id with
            | Some a => (Returned a, addresses)
            | None => (Raised KeyError, addresses)
            end
        end
    end.

End Address.
(** * Properties *)

(** ** Reading the primitives *)

Lemma member_true {A} (k : UUID) (d : gmap UUID A) v :
  d !! k = Some v → member k d = true.
Proof. intros H. unfold member. rewrite H. reflexivity. Qed.

Lemma member_false {A} (k : UUID) (d : gmap UUID A) :
  d !! k = None → member k d = false.
Proof.
  intros H. unfold member. rewrite H.
  apply bool_decide_eq_false. intros [x Hx]. discriminate.
Qed.

Lemma member_spec {A} (k : UUID) (d : gmap UUID A) :
  member k d = true ↔ is_Some (d !! k).
Proof. unfold member. apply bool_decide_eq_true. Qed.

Lemma any_uni_true uni st :
  any_uni uni (persons st) = true ↔ student_known uni st.
Proof. unfold any_uni, student_known, map_Exists. apply bool_decide_eq_true. Qed.

Lemma any_uni_false uni st :
  any_uni uni (persons st) = false ↔ ¬ student_known uni st.
Proof.
  rewrite <- any_uni_true. destruct (any_uni uni (persons st)); split; congruence.
Qed.

(** Unfolding one endpoint down to matches on the store. *)
Ltac unfold_M :=
  unfold respond, get_course, get_enrollment, create_person,
    set_person, set_course, set_enrollment, del_course, del_enrollment,
    getitem, raise_if, modify, gets, raise;
  unfold mbind, M_bind, mret, M_ret; simpl.

(** The capacity test in the words of the spec. *)
Lemma enrollment_full_true course :
  enrollment_full course = true →
  ∃ m, CourseRead.max_enrollment course = Some m ∧
       m ≤ CourseRead.current_enrollment course.
Proof.
  unfold enrollment_full. destruct (CourseRead.max_enrollment course) as [m|];
    [|discriminate].
  destruct (m =? 0); [discriminate|]. intros H%Z.leb_le. eauto.
Qed.


Lemma enrollment_full_valid course m :
  CourseRead.valid course →
  CourseRead.max_enrollment course = Some m →
  m ≤ CourseRead.current_enrollment course →
  enrollment_full course = true.
Proof.
  intros (_ & Hmax & _) Hm Hle. unfold enrollment_full. rewrite Hm.
  specialize (Hmax m Hm). destruct (Z.eqb_spec m 0); [lia|].
  apply Z.leb_le. exact Hle.
Qed.

(** What [create_enrollment] does, by cases on its four checks. *)
Lemma create_enrollment_unfold enrollment d st :
  create_enrollment enrollment d st =
  if negb (any_uni (EnrollmentCreate.student_uni enrollment) (persons st))
  then (Raised (HTTPException 400 "Student not found"), st)
  else match courses st !! EnrollmentCreate.course_id enrollment with
  | None => (Raised (HTTPException 400 "Course not found"), st)
  | Some course =>
    if negb (CourseRead.is_active course)
    then (Raised (HTTPException 400 "Course is not active"), st)
    else if enrollment_full course
    then (Raised (HTTPException 400 "Course enrollment is full"), st)
    else (Returned (EnrollmentRead_of_dump enrollment d),
          mkStore (persons st)
            (<[EnrollmentCreate.course_id enrollment :=
                 CourseRead.set_current_enrollment
                   (CourseRead.current_enrollment course + 1) course]>
               (courses st))
            (<[uuid4 d := EnrollmentRead_of_dump enrollment d]>
               (enrollments st)))
  end.
Proof.
  unfold create_enrollment. unfold_M.
  destruct (any_uni _ _); simpl; [|reflexivity].
  destruct (courses st !! EnrollmentCreate.course_id enrollment) as [course|] eqn:Hc.
  - rewrite (member_true _ _ _ Hc). simpl. rewrite Hc.
    destruct (CourseRead.is_active course); simpl; [|reflexivity].
    destruct (enrollment_full course); reflexivity.
  - rewrite (member_false _ _ Hc). reflexivity.
Qed.

(** ** CreateEnrollment *)


(** What a colliding identifier does on that store: the record of
    [course_A] under [100] is replaced by one of [course_B], the store
    still holds one enrollment, and both counters are [1]. *)
Example colliding_creation_overwrites :
  let st' := (create_enrollment (enrollment_payload "abc1234" course_B)
                (d0 100%N) st_enrolled).2 in
  EnrollmentRead.course_id <$> enrollments st_enrolled !! 100%N
    = Some course_A ∧
  EnrollmentRead.course_id <$> enrollments st' !! 100%N = Some course_B ∧
  size (enrollments st_enrolled) = 1%nat ∧ size (enrollments st') = 1%nat ∧
  counter course_A st' = Some 1 ∧ counter course_B st' = Some 1.
Proof. vm_compute. split_and!; reflexivity. Qed.


(** C2. A [create_enrollment] call that fails a check raises the error of
    the first check it fails (unknown student, unknown course, inactive
    course, [current_enrollment >= max_enrollment] on a stored course, which
    satisfies its field constraints) and leaves the whole store as it was;
    whatever it raises, no enrollment is stored and no counter is
    modified: the store is unchanged. *)
Theorem create_enrollment_failure_no_effect
    (st : Store) (enrollment : EnrollmentCreate.t) (d : Defaults) :
  (¬ student_known (EnrollmentCreate.student_uni enrollment) st →
   create_enrollment enrollment d st = (Raised (ReferenceError "Student"), st)) ∧
  (student_known (EnrollmentCreate.student_uni enrollment) st →
   courses st !! EnrollmentCreate.course_id enrollment = None →
   create_enrollment enrollment d st = (Raised (ReferenceError "Course"), st)) ∧
  (∀ course,
   student_known (EnrollmentCreate.student_uni enrollment) st →
   courses st !! EnrollmentCreate.course_id enrollment = Some course →
   CourseRead.is_active course = false →
   create_enrollment enrollment d st = (Raised PreconditionError, st)) ∧
  (∀ course m,
   student_known (EnrollmentCreate.student_uni enrollment) st →
   courses st !! EnrollmentCreate.course_id enrollment = Some course →
   CourseRead.is_active course = true →
   CourseRead.valid course →
   CourseRead.max_enrollment course = Some m →
   m ≤ CourseRead.current_enrollment course →
   create_enrollment enrollment d st = (Raised CapacityError, st)) ∧
  (∀ e st', create_enrollment enrollment d st = (Raised e, st') → st' = st).
Proof.
  rewrite create_enrollment_unfold.
  repeat split.
  - intros H%any_uni_false. rewrite H. reflexivity.
  - intros H%any_uni_true Hc. rewrite H, Hc. reflexivity.
  - intros course H%any_uni_true Hc Ha. rewrite H, Hc, Ha. reflexivity.
  - intros course m H%any_uni_true Hc Ha Hv Hm Hle.
    rewrite H, Hc, Ha, (enrollment_full_valid _ _ Hv Hm Hle). reflexivity.
  - intros e st'.
    destruct (negb _); [congruence|].
    destruct (courses st !! _) as [course|]; [|congruence].
    destruct (negb _); [congruence|].
    destruct (enrollment_full course); congruence.
Qed.

(** C8. With the student known and the course stored and active (a stored
    course satisfies its field constraints), [create_enrollment] raises the
    capacity error exactly when [max_enrollment] is not null and
    [current_enrollment >= max_enrollment]; in particular it does, with the
    store unchanged, whenever [current_enrollment] equals a non-null
    [max_enrollment]. *)
Theorem create_enrollment_capacity_error_iff
    (st : Store) (enrollment : EnrollmentCreate.t) (d : Defaults)
    (course : CourseRead.t) :
  student_known (EnrollmentCreate.student_uni enrollment) st →
  courses st !! EnrollmentCreate.course_id enrollment = Some course →
  CourseRead.is_active course = true →
  CourseRead.valid course →
  ((create_enrollment enrollment d st).1 = Raised CapacityError ↔
   ∃ m, CourseRead.max_enrollment course = Some m ∧
        m ≤ CourseRead.current_enrollment course) ∧
  (∀ m, CourseRead.max_enrollment course = Some m →
        CourseRead.current_enrollment course = m →
        create_enrollment enrollment d st = (Raised CapacityError, st)).
Proof.
  intros Hstu%any_uni_true Hc Hact Hvalid.
  rewrite create_enrollment_unfold, Hstu, Hc, Hact. simpl.
  repeat split.
  - destruct (enrollment_full course) eqn:Hf; simpl; [|discriminate].
    intros _. by apply enrollment_full_true.
  - intros (m & Hm & Hle).
    by rewrite (enrollment_full_valid _ _ Hvalid Hm Hle).
  - intros m Hm Heq.
    rewrite (enrollment_full_valid course m Hvalid Hm); [reflexivity|lia].
Qed.

(** ** The other Enrollment endpoints, by cases *)

Lemma delete_enrollment_unfold enrollment_id st :
  delete_enrollment enrollment_id st =
  match enrollments st !! enrollment_id with
  | None => (Raised (HTTPException 404 "Enrollment not found"), st)
  | Some enrollment =>
    match courses st !! EnrollmentRead.course_id enrollment with
    | Some course =>
        (Returned tt,
         mkStore (persons st)
           (<[EnrollmentRead.course_id enrollment :=
                CourseRead.set_current_enrollment
                  (Z.max 0 (CourseRead.current_enrollment course - 1))
                  course]> (courses st))
           (delete enrollment_id (enrollments st)))
    | None =>
        (Returned tt,
         mkStore (persons st) (courses st)
           (delete enrollment_id (enrollments st)))
    end
  end.
Proof.
  unfold delete_enrollment. unfold_M.
  destruct (enrollments st !! enrollment_id) as [e|] eqn:He.
  - rewrite (member_true _ _ _ He). simpl. rewrite He.
    destruct (courses st !! EnrollmentRead.course_id e) as [c|] eqn:Hc.
    + rewrite (member_true _ _ _ Hc). simpl. rewrite Hc. reflexivity.
    + rewrite (member_false _ _ Hc). reflexivity.
  - rewrite (member_false _ _ He). reflexivity.
Qed.

Lemma replace_enrollment_unfold enrollment_id enrollment d st :
  replace_enrollment enrollment_id enrollment d st =
  match enrollments st !! enrollment_id with
  | None => (Raised (HTTPException 404 "Enrollment not found"), st)
  | Some _ =>
    match courses st !! EnrollmentCreate.course_id enrollment with
    | None => (Raised (HTTPException 400 "Course not found"), st)
    | Some course =>
      if negb (CourseRead.is_active course)
      then (Raised (HTTPException 400 "Course is not active"), st)
      else if enrollment_full course
      then (Raised (HTTPException 400 "Course enrollment is full"), st)
      else (Returned (EnrollmentRead_with_id enrollment_id enrollment d),
            mkStore (persons st) (courses st)
              (<[enrollment_id :=
                   EnrollmentRead_with_id enrollment_id enrollment d]>
                 (enrollments st)))
    end
  end.
Proof.
  unfold replace_enrollment. unfold_M.
  destruct (enrollments st !! enrollment_id) as [e|] eqn:He.
  - rewrite (member_true _ _ _ He). simpl.
    destruct (courses st !! EnrollmentCreate.course_id enrollment)
      as [c|] eqn:Hc.
    + rewrite (member_true _ _ _ Hc). simpl. rewrite Hc.
      destruct (CourseRead.is_active c); simpl; [|reflexivity].
      destruct (enrollment_full c); simpl; [reflexivity|].
      by rewrite lookup_insert_eq.
    + rewrite (member_false _ _ Hc). reflexivity.
  - rewrite (member_false _ _ He). reflexivity.
Qed.

Lemma update_enrollment_unfold enrollment_id update st :
  update_enrollment enrollment_id update st =
  match enrollments st !! enrollment_id with
  | None => (Raised (HTTPException 404 "Enrollment not found"), st)
  | Some stored =>
    if match field_value (EnrollmentUpdate.course_id update) with
       | Some new_course_id => negb (member new_course_id (courses st))
       | None => false
       end
    then (Raised (HTTPException 400 "Course not found"), st)
    else match EnrollmentRead_merge stored update with
         | None => (Raised ValidationError, st)
         | Some merged =>
             (Returned merged,
              mkStore (persons st) (courses st)
                (<[enrollment_id := merged]> (enrollments st)))
         end
  end.
Proof.
  unfold update_enrollment. unfold_M.
  destruct (enrollments st !! enrollment_id) as [e|] eqn:He.
  - rewrite (member_true _ _ _ He). simpl.
    destruct (field_value (EnrollmentUpdate.course_id update)) as [k|]; simpl.
    + destruct (member k (courses st)); simpl; [|reflexivity].
      rewrite He. destruct (EnrollmentRead_merge e update); simpl;
        [|reflexivity].
      by rewrite lookup_insert_eq.
    + rewrite He. destruct (EnrollmentRead_merge e update); simpl;
        [|reflexivity].
      by rewrite lookup_insert_eq.
  - rewrite (member_false _ _ He). reflexivity.
Qed.

(** ** The Course endpoints, by cases *)

Lemma create_course_unfold course d st :
  create_course course d st =
  (Returned (CourseRead_of_dump course d),
   mkStore (persons st)
     (<[CourseCreate.id course := CourseRead_of_dump course d]> (courses st))
     (enrollments st)).
Proof. reflexivity. Qed.

Lemma replace_course_unfold course_id course d st :
  replace_course course_id course d st =
  match courses st !! course_id with
  | None => (Raised (HTTPException 404 "Course not found"), st)
  | Some _ =>
      (Returned (CourseRead_with_id course_id course d),
       mkStore (persons st)
         (<[course_id := CourseRead_with_id course_id course d]> (courses st))
         (enrollments st))
  end.
Proof.
  unfold replace_course. unfold_M.
  destruct (courses st !! course_id) as [c|] eqn:Hc.
  - rewrite (member_true _ _ _ Hc). simpl. by rewrite lookup_insert_eq.
  - rewrite (member_false _ _ Hc). reflexivity.
Qed.

Lemma update_course_unfold course_id update st :
  update_course course_id update st =
  match courses st !! course_id with
  | None => (Raised (HTTPException 404 "Course not found"), st)
  | Some stored =>
      match CourseRead_merge stored update with
      | None => (Raised ValidationError, st)
      | Some merged =>
          (Returned merged,
           mkStore (persons st) (<[course_id := merged]> (courses st))
             (enrollments st))
      end
  end.
Proof.
  unfold update_course. unfold_M.
  destruct (courses st !! course_id) as [c|] eqn:Hc.
  - rewrite (member_true _ _ _ Hc). simpl. rewrite Hc.
    destruct (CourseRead_merge c update); simpl; [|reflexivity].
    by rewrite lookup_insert_eq.
  - rewrite (member_false _ _ Hc). reflexivity.
Qed.

Lemma delete_course_unfold course_id st :
  delete_course course_id st =
  match courses st !! course_id with
  | None => (Raised (HTTPException 404 "Course not found"), st)
  | Some _ =>
      (Returned tt,
       mkStore (persons st) (delete course_id (courses st)) (enrollments st))
  end.
Proof.
  unfold delete_course. unfold_M.
  destruct (courses st !! course_id) as [c|] eqn:Hc.
  - rewrite (member_true _ _ _ Hc). reflexivity.
  - rewrite (member_false _ _ Hc). reflexivity.
Qed.

(** The merge of a Course keeps [id] and [current_enrollment]. *)
Lemma CourseRead_merge_keeps stored update merged :
  CourseRead_merge stored update = Some merged →
  CourseRead.id merged = CourseRead.id stored ∧
  CourseRead.current_enrollment merged = CourseRead.current_enrollment stored.
Proof.
  unfold CourseRead_merge. intros H.
  repeat match type of H with
         | context [merge_required ?a ?b] =>
             destruct (merge_required a b); simpl in H; [|discriminate]
         end.
  injection H as <-. by split.
Qed.

(** The merge of an Enrollment keeps [id]; its [course_id] is the
    payload's when the payload sets one. *)
Lemma EnrollmentRead_merge_keeps stored update merged :
  EnrollmentRead_merge stored update = Some merged →
  EnrollmentRead.id merged = EnrollmentRead.id stored ∧
  merge_required (EnrollmentRead.course_id stored)
    (EnrollmentUpdate.course_id update) = Some (EnrollmentRead.course_id merged).
Proof.
  unfold EnrollmentRead_merge. intros H.
  destruct (merge_required (EnrollmentRead.student_uni stored) _);
    simpl in H; [|discriminate].
  destruct (merge_required (EnrollmentRead.course_id stored) _);
    simpl in H; [|discriminate].
  destruct (merge_required (EnrollmentRead.status stored) _);
    simpl in H; [|discriminate].
  injection H as <-. by split.
Qed.

(** ** Counting the enrollments that reference a course *)

Lemma count_refs_nonneg C es : 0 ≤ count_refs C es.
Proof. unfold count_refs. lia. Qed.

Lemma count_refs_delete C k es :
  count_refs C (delete k es) = count_refs C es - refs_at C k es.
Proof.
  unfold count_refs, refs_at. rewrite map_filter_delete, map_size_delete.
  destruct (es !! k) as [e|] eqn:He.
  - destruct (decide (EnrollmentRead.course_id e = C)) as [Hc|Hc].
    + assert (Hin : filter (references C) es !! k = Some e)
        by (apply map_lookup_filter_Some; by split).
      rewrite Hin.
      pose proof (map_size_ne_0_lookup_2 (filter (references C) es) k
                    (ex_intro _ e Hin)).
      lia.
    + assert (Hout : filter (references C) es !! k = None).
      { apply map_lookup_filter_None. right. intros x Hx.
        rewrite He in Hx. injection Hx as <-. exact Hc. }
      rewrite Hout. simpl. lia.
  - assert (Hout : filter (references C) es !! k = None)
      by (apply map_lookup_filter_None; by left).
    rewrite Hout. simpl. lia.
Qed.

Lemma count_refs_insert C k v es :
  count_refs C (<[k := v]> es) =
  count_refs C (delete k es) +
  (if decide (EnrollmentRead.course_id v = C) then 1 else 0).
Proof.
  rewrite <- (insert_delete_eq es k v). unfold count_refs.
  rewrite map_filter_insert, delete_delete_eq.
  destruct (decide (EnrollmentRead.course_id v = C)) as [Hc|Hc].
  - rewrite decide_True by exact Hc.
    rewrite map_size_insert_None; [lia|].
    apply map_lookup_filter_None. left. apply lookup_delete_eq.
  - rewrite decide_False by exact Hc. lia.
Qed.

Lemma refs_at_bounds C k es : 0 ≤ refs_at C k es ≤ count_refs C es.
Proof.
  pose proof (count_refs_delete C k es) as Hd.
  pose proof (count_refs_nonneg C (delete k es)).
  unfold refs_at in *. destruct (es !! k); [|pose proof (count_refs_nonneg C es); lia].
  destruct (decide _); lia.
Qed.

(** ** DeleteEnrollment *)

(** C7. [delete_enrollment] raises the not-found error and changes nothing
    when the identifier is not in the Enrollment store.  When it is, the
    call succeeds and removes the record; if the record's [course_id] is
    still a stored course, that course's counter becomes
    [max(0, current_enrollment - 1)], which is never negative, and
    otherwise no course changes; no other course and no person changes; and
    a second delete of the same identifier raises the not-found error and
    changes nothing, so nothing is decremented twice. *)
Theorem delete_enrollment_behaviour (st : Store) (enrollment_id : UUID) :
  (enrollments st !! enrollment_id = None →
   delete_enrollment enrollment_id st =
     (Raised (NotFoundError "Enrollment"), st)) ∧
  (∀ enrollment,
   enrollments st !! enrollment_id = Some enrollment →
   ∃ st',
     delete_enrollment enrollment_id st = (Returned tt, st') ∧
     enrollments st' = delete enrollment_id (enrollments st) ∧
     persons st' = persons st ∧
     (∀ k, k ≠ EnrollmentRead.course_id enrollment →
           courses st' !! k = courses st !! k) ∧
     match courses st !! EnrollmentRead.course_id enrollment with
     | Some course =>
         courses st' !! EnrollmentRead.course_id enrollment =
           Some (CourseRead.set_current_enrollment
                   (Z.max 0 (CourseRead.current_enrollment course - 1))
                   course) ∧
         counter (EnrollmentRead.course_id enrollment) st' =
           Some (Z.max 0 (CourseRead.current_enrollment course - 1)) ∧
         0 ≤ Z.max 0 (CourseRead.current_enrollment course - 1)
     | None => courses st' = courses st
     end ∧
     delete_enrollment enrollment_id st' =
       (Raised (NotFoundError "Enrollment"), st')).
Proof.
  split.
  - intros H. rewrite delete_enrollment_unfold, H. reflexivity.
  - intros e He. rewrite delete_enrollment_unfold, He.
    destruct (courses st !! EnrollmentRead.course_id e) as [c|] eqn:Hc.
    + eexists. split; [reflexivity|]. simpl. repeat split.
      * intros k Hk. by apply lookup_insert_ne.
      * apply lookup_insert_eq.
      * unfold counter. simpl. by rewrite lookup_insert_eq.
      * lia.
      * rewrite delete_enrollment_unfold. simpl.
        by rewrite lookup_delete_eq.
    + eexists. split; [reflexivity|]. simpl. repeat split.
      rewrite delete_enrollment_unfold. simpl. by rewrite lookup_delete_eq.
Qed.

(** ** Moving an enrollment to another course *)

(** C10, as stated, fails: the delete lowers [B]'s counter only down to
    zero.  On the store with enrollment [100] in [course_A] and no
    enrollment in [course_B], whose counter is [0], moving [100] to
    [course_B] and deleting it leaves [course_B] at [0], not at [-1]. *)
Lemma move_then_delete_does_not_decrement : ¬ move_then_delete_decrements.
Proof.
  intros H.
  destruct (H st_enrolled 100%N course_A course_B
              (enrollment_record 100%N "abc1234" course_A)
              (enrollment_record 100%N "abc1234" course_B)
              (course_record course_A (Some 30) 1 true)
              (course_record course_B None 0 true)
              move_to_B)
    as (st1 & st2 & Hupd & _ & _ & Hdel & HB & _).
  - vm_compute. reflexivity.
  - reflexivity.
  - vm_compute. discriminate.
  - vm_compute. reflexivity.
  - vm_compute. reflexivity.
  - reflexivity.
  - reflexivity.
  - rewrite update_enrollment_unfold in Hupd. vm_compute in Hupd.
    injection Hupd as <-.
    rewrite delete_enrollment_unfold in Hdel. vm_compute in Hdel.
    injection Hdel as <-.
    vm_compute in HB. discriminate.
Qed.

(** Nor does the overcount of [A] last: on the same store, after the move
    and the delete [course_A] has counter [1] and no enrollment, and a
    full replacement of [course_A] then stores the payload's counter,
    [0]. *)
Example overcount_ends_with_replace_course :
  let st2 := run [UpdateEnrollment 100%N move_to_B; DeleteEnrollment 100%N]
               st_enrolled in
  let st3 := run [ReplaceCourse course_A (calculus course_A) (d0 0%N)] st2 in
  counter course_A st2 = Some 1 ∧ counter course_B st2 = Some 0 ∧
  count_refs course_A (enrollments st2) = 0 ∧
  counter course_A st3 = Some 0 ∧
  count_refs course_A (enrollments st3) = 0.
Proof. vm_compute. split_and!; reflexivity. Qed.

(** C10, amended.  Let a stored enrollment reference course [A] and let a
    partial update, accepted by the model, set its [course_id] to another
    stored course [B].  The update succeeds and changes neither counter.
    The delete that follows succeeds, sets [B]'s counter to
    [max(0, current_enrollment - 1)], so a counter at zero stays at zero,
    and leaves [A]'s counter as it was: if [A]'s counter equalled the
    number of enrollments referencing [A] before the update, it is one
    more than that number after the delete. *)
Theorem update_course_id_then_delete
    (st : Store) (enrollment_id A B : UUID)
    (stored merged : EnrollmentRead.t) (cA cB : CourseRead.t)
    (update : EnrollmentUpdate.t) :
  enrollments st !! enrollment_id = Some stored →
  EnrollmentRead.course_id stored = A →
  A ≠ B →
  courses st !! A = Some cA →
  courses st !! B = Some cB →
  EnrollmentUpdate.course_id update = SetTo B →
  EnrollmentRead_merge stored update = Some merged →
  ∃ st1 st2,
    update_enrollment enrollment_id update st = (Returned merged, st1) ∧
    EnrollmentRead.course_id merged = B ∧
    enrollments st1 !! enrollment_id = Some merged ∧
    counter A st1 = Some (CourseRead.current_enrollment cA) ∧
    counter B st1 = Some (CourseRead.current_enrollment cB) ∧
    delete_enrollment enrollment_id st1 = (Returned tt, st2) ∧
    counter B st2 = Some (Z.max 0 (CourseRead.current_enrollment cB - 1)) ∧
    counter A st2 = Some (CourseRead.current_enrollment cA) ∧
    (count_refs A (enrollments st) = CourseRead.current_enrollment cA →
     counter A st2 = Some (count_refs A (enrollments st2) + 1)).
Proof.
  intros He HA Hne HcA HcB Hupd Hmerge.
  destruct (EnrollmentRead_merge_keeps _ _ _ Hmerge) as [_ Hcid].
  rewrite Hupd in Hcid. simpl in Hcid. injection Hcid as Hcid.
  rewrite update_enrollment_unfold, He, Hupd. simpl.
  rewrite (member_true _ _ _ HcB), Hmerge. simpl.
  eexists _, _. split; [reflexivity|]. simpl.
  rewrite delete_enrollment_unfold. simpl.
  rewrite lookup_insert_eq, <- Hcid, HcB.
  split_and!; unfold counter; simpl; try done.
  all: rewrite ?lookup_insert_eq, ?HcA, ?HcB; try done.
  all: simpl; rewrite ?lookup_insert_eq; try done.
  all: rewrite lookup_insert_ne by congruence; rewrite HcA; simpl; try done.
  intros Hsync.
  rewrite delete_insert_eq, count_refs_delete. unfold refs_at.
  rewrite He, decide_True by exact HA. f_equal. lia.
Qed.

(** ** Reads, and the step of each request *)

Lemma create_person_unfold person_read st :
  create_person person_read st =
  (Returned person_read,
   mkStore (<[PersonRead.id person_read := person_read]> (persons st))
     (courses st) (enrollments st)).
Proof. reflexivity. Qed.

Lemma get_course_state k st : (get_course k st).2 = st.
Proof.
  unfold get_course. unfold_M.
  destruct (member k (courses st)); simpl; [|reflexivity].
  destruct (courses st !! k); reflexivity.
Qed.

Lemma get_enrollment_state k st : (get_enrollment k st).2 = st.
Proof.
  unfold get_enrollment. unfold_M.
  destruct (member k (enrollments st)); simpl; [|reflexivity].
  destruct (enrollments st !! k); reflexivity.
Qed.

Lemma respond_state {A} (body : A → Response) (m : M A) st :
  (respond body m st).2 = (m st).2.
Proof.
  unfold respond, mbind, M_bind, mret, M_ret.
  destruct (m st) as [[e|a] st']; reflexivity.
Qed.

Lemma respond_succeeded {A} (body : A → Response) (m : M A) st :
  succeeded (respond body m st) = succeeded (m st).
Proof.
  unfold respond, succeeded, mbind, M_bind, mret, M_ret.
  destruct (m st) as [[e|a] st']; reflexivity.
Qed.

Lemma counter_Some C st n :
  counter C st = Some n ↔
  ∃ c, courses st !! C = Some c ∧ CourseRead.current_enrollment c = n.
Proof.
  unfold counter. destruct (courses st !! C) as [c|]; simpl; split.
  - intros [= <-]. eauto.
  - intros (c' & [= <-] & <-). reflexivity.
  - discriminate.
  - intros (c' & Hc & _). discriminate.
Qed.

(** A partial update of a Course leaves every stored counter as it was,
    whatever the payload and whether or not the call succeeds. *)
Lemma update_course_counter st k update C :
  counter C (update_course k update st).2 = counter C st.
Proof.
  rewrite update_course_unfold.
  destruct (courses st !! k) as [stored|] eqn:Hk; [|reflexivity].
  destruct (CourseRead_merge stored update) as [merged|] eqn:Hm;
    [|reflexivity].
  unfold counter. simpl.
  destruct (decide (k = C)) as [<-|Hne].
  - rewrite lookup_insert_eq, Hk. simpl.
    by destruct (CourseRead_merge_keeps _ _ _ Hm) as [_ ->].
  - by rewrite lookup_insert_ne.
Qed.

(** A full replacement of a stored Course sets its counter to the
    payload's [current_enrollment]. *)
Lemma replace_course_counter st k course d n :
  counter k st = Some n →
  counter k (replace_course k course d st).2 =
    Some (CourseCreate.current_enrollment course).
Proof.
  intros (c & Hc & _)%counter_Some.
  rewrite replace_course_unfold, Hc. unfold counter. simpl.
  by rewrite lookup_insert_eq.
Qed.

Lemma created_eq C e d st :
  created C (CreateEnrollment e d) st =
  if succeeded (create_enrollment e d st)
     && bool_decide (EnrollmentCreate.course_id e = C)
  then 1 else 0.
Proof. unfold created, step. by rewrite respond_succeeded. Qed.

Lemma deleted_eq C k st :
  deleted C (DeleteEnrollment k) st = refs_at C k (enrollments st).
Proof.
  unfold deleted, step. rewrite respond_succeeded, delete_enrollment_unfold.
  unfold refs_at. destruct (enrollments st !! k) as [e|]; [|reflexivity].
  destruct (courses st !! EnrollmentRead.course_id e); reflexivity.
Qed.

(** ** Direct Course operations and the counter *)

(** C5, as stated, fails: on the store with one person, two courses and one
    enrollment in [course_A] (counter [1]), the full replacement
    [replace_course course_A (calculus course_A)] stores the payload's
    [current_enrollment], [0]. *)
Lemma course_ops_keep_counter_fails : ¬ course_ops_keep_counter.
Proof.
  intros H.
  specialize (H st_enrolled
                (ReplaceCourse course_A (calculus course_A) (d0 0%N))
                course_A 1 0 eq_refl).
  assert (0 = 1) by (apply H; vm_compute; reflexivity).
  discriminate.
Qed.

(** C5, amended.  The counter of a stored course [C] changes in three ways
    only: a successful [create_enrollment] referencing [C] adds one; a
    successful [delete_enrollment] of a record referencing [C] makes it
    [max(0, n - 1)]; a full replacement of [C] sets it to the payload's
    [current_enrollment].  A partial update of a Course, a replacement or
    deletion of another Course, a creation under another identifier and
    every other Enrollment or Person request leave it as it was. *)
Theorem counter_changes_by_design
    (st : Store) (op : Op) (C : UUID) (n n' : Z) :
  counter C st = Some n →
  counter C (step op st).2 = Some n' →
  match op with
  | ReplaceCourse k course _ =>
      if decide (k = C) then n' = CourseCreate.current_enrollment course
      else n' = n
  | CreateCourse course _ => CourseCreate.id course ≠ C → n' = n
  | CreateEnrollment _ _ => n' = n + created C op st
  | DeleteEnrollment _ =>
      n' = if decide (deleted C op st = 1) then Z.max 0 (n - 1) else n
  | _ => n' = n
  end.
Proof.
  intros Hn Hn'. destruct op as [p|c d|k|k c d|k u|k|e d|k|k e d|k u|k];
    unfold step in Hn'; rewrite respond_state in Hn'.
  - rewrite create_person_unfold in Hn'. unfold counter in *. simpl in Hn'.
    congruence.
  - intros Hne. rewrite create_course_unfold in Hn'.
    unfold counter in *. simpl in Hn'.
    rewrite lookup_insert_ne in Hn' by exact Hne. congruence.
  - rewrite get_course_state in Hn'. congruence.
  - destruct (decide (k = C)) as [->|Hne].
    + rewrite (replace_course_counter _ _ _ _ _ Hn) in Hn'. congruence.
    + rewrite replace_course_unfold in Hn'.
      destruct (courses st !! k); [|simpl in *; congruence].
      unfold counter in *. simpl in Hn'.
      rewrite lookup_insert_ne in Hn' by exact Hne. congruence.
  - rewrite update_course_counter in Hn'. congruence.
  - rewrite delete_course_unfold in Hn'.
    destruct (courses st !! k) eqn:Hk; [|simpl in *; congruence].
    unfold counter in *. simpl in Hn'.
    destruct (decide (k = C)) as [->|Hne].
    + rewrite lookup_delete_eq in Hn'. discriminate.
    + rewrite lookup_delete_ne in Hn' by exact Hne. congruence.
  - rewrite created_eq. unfold succeeded.
    rewrite create_enrollment_unfold in *.
    destruct (negb (any_uni _ _)); simpl in *;
      [rewrite Hn in Hn'; injection Hn'; lia|].
    destruct (courses st !! EnrollmentCreate.course_id e) as [course|] eqn:Hc;
      simpl in *; [|rewrite Hn in Hn'; injection Hn'; lia].
    destruct (negb (CourseRead.is_active course)); simpl in *;
      [rewrite Hn in Hn'; injection Hn'; lia|].
    destruct (enrollment_full course); simpl in *;
      [rewrite Hn in Hn'; injection Hn'; lia|].
    unfold counter in *. simpl in Hn'.
    destruct (decide (EnrollmentCreate.course_id e = C)) as [HeC|HeC].
    + rewrite bool_decide_eq_true_2 by exact HeC.
      rewrite HeC in *. rewrite lookup_insert_eq in Hn'. rewrite Hc in Hn.
      simpl in *. injection Hn as Hn. injection Hn' as Hn'. lia.
    + rewrite bool_decide_eq_false_2 by exact HeC.
      rewrite lookup_insert_ne in Hn' by exact HeC.
      rewrite Hn in Hn'. injection Hn'. lia.
  - rewrite get_enrollment_state in Hn'. congruence.
  - rewrite replace_enrollment_unfold in Hn'.
    destruct (enrollments st !! k); [|simpl in *; congruence].
    destruct (courses st !! EnrollmentCreate.course_id e) as [course|];
      [|simpl in *; congruence].
    destruct (negb _); [simpl in *; congruence|].
    destruct (enrollment_full course); [simpl in *; congruence|].
    unfold counter in *. simpl in Hn'. congruence.
  - rewrite update_enrollment_unfold in Hn'.
    destruct (enrollments st !! k) as [stored|]; [|simpl in *; congruence].
    destruct (match field_value _ with Some _ => _ | None => _ end);
      [simpl in *; congruence|].
    destruct (EnrollmentRead_merge stored u); [|simpl in *; congruence].
    unfold counter in *. simpl in Hn'. congruence.
  - rewrite deleted_eq. unfold refs_at.
    rewrite delete_enrollment_unfold in Hn'.
    destruct (enrollments st !! k) as [e|] eqn:He; simpl in *;
      [|rewrite Hn in Hn'; injection Hn' as <-; reflexivity].
    destruct (decide (EnrollmentRead.course_id e = C)) as [HeC|HeC]; simpl.
    + rewrite HeC in *. apply counter_Some in Hn as (c & Hc & <-).
      rewrite Hc in Hn'. unfold counter in Hn'. simpl in Hn'.
      rewrite lookup_insert_eq in Hn'. simpl in Hn'. injection Hn' as <-.
      reflexivity.
    + destruct (courses st !! EnrollmentRead.course_id e) eqn:Hc;
        simpl in *; unfold counter in *; simpl in Hn'.
      * rewrite lookup_insert_ne in Hn' by exact HeC.
        rewrite Hn in Hn'. injection Hn' as <-. reflexivity.
      * rewrite Hn in Hn'. injection Hn' as <-. reflexivity.
Qed.

(** C6, as stated, fails: [CourseUpdate] has no [current_enrollment] field,
    so no partial update, successful or not, changes a stored counter. *)
Lemma patch_cannot_overwrite_counter : ¬ patch_can_overwrite_counter.
Proof.
  intros (st & st' & k & update & merged & n & n' & Hrun & Hn & Hn' & Hne).
  pose proof (update_course_counter st k update k) as Hsame.
  rewrite Hrun in Hsame. simpl in Hsame. congruence.
Qed.

(** C6, amended.  A partial update of an existing Course never changes its
    stored [current_enrollment]; the counter is unguarded against the full
    replacement instead, which overwrites it with the payload's value: on
    the store with one enrollment in [course_A], replacing [course_A] takes
    its counter from [1] to [0] while the enrollment stays. *)
Theorem patch_keeps_counter_put_overwrites :
  (∀ (st : Store) (k : UUID) (update : CourseUpdate.t) (n : Z),
     counter k st = Some n →
     counter k (update_course k update st).2 = Some n) ∧
  (∀ (st : Store) (k : UUID) (course : CourseCreate.t) (d : Defaults) (n : Z),
     counter k st = Some n →
     counter k (replace_course k course d st).2 =
       Some (CourseCreate.current_enrollment course)) ∧
  (counter course_A st_enrolled = Some 1 ∧
   count_refs course_A (enrollments st_enrolled) = 1 ∧
   let st' := (replace_course course_A (calculus course_A) (d0 0%N)
                 st_enrolled).2 in
   counter course_A st' = Some 0 ∧
   count_refs course_A (enrollments st') = 1).
Proof.
  split_and!.
  - intros st k update n Hn. by rewrite update_course_counter.
  - intros st k course d n Hn. by eapply replace_course_counter.
  - vm_compute. reflexivity.
  - vm_compute. reflexivity.
  - vm_compute. split; reflexivity.
Qed.

(** ** Identifiers of courses *)

(** C9, the code at the failing input: [create_course] with a payload whose
    [id] is the key of a stored course succeeds and replaces that record,
    its counter included. *)
Theorem create_course_overwrites_existing :
  (∃ old, courses st_enrolled !! course_A = Some old ∧
          CourseRead.code old = "CS101" ∧
          CourseRead.current_enrollment old = 1) ∧
  ∃ new st',
    create_course (calculus course_A) (d0 0%N) st_enrolled
      = (Returned new, st') ∧
    courses st' !! course_A = Some new ∧
    CourseRead.code new = "MATH2001" ∧
    CourseRead.current_enrollment new = 0 ∧
    size (courses st') = size (courses st_enrolled).
Proof.
  split.
  - eexists. split_and!; vm_compute; reflexivity.
  - eexists _, _. split; [reflexivity|].
    split_and!; vm_compute; reflexivity.
Qed.

(** No request changes the [id] a stored course or enrollment carries: a
    partial update copies it from the stored record, a replacement takes it
    from the path. *)
Lemma replace_and_update_keep_id :
  (∀ stored update merged,
     CourseRead_merge stored update = Some merged →
     CourseRead.id merged = CourseRead.id stored) ∧
  (∀ k course d, CourseRead.id (CourseRead_with_id k course d) = k) ∧
  (∀ stored update merged,
     EnrollmentRead_merge stored update = Some merged →
     EnrollmentRead.id merged = EnrollmentRead.id stored) ∧
  (∀ k e d, EnrollmentRead.id (EnrollmentRead_with_id k e d) = k).
Proof.
  split_and!.
  - intros ??? H. by destruct (CourseRead_merge_keeps _ _ _ H).
  - reflexivity.
  - intros ??? H. by destruct (EnrollmentRead_merge_keeps _ _ _ H).
  - reflexivity.
Qed.

(** ** ReplaceEnrollment *)

(** [replace_enrollment] makes the course checks of [create_enrollment],
    in the same order and with the same errors, after the not-found
    check; on success it overwrites the record under the same identifier
    and leaves the other two stores, every counter included, as they
    were. *)
Lemma replace_enrollment_behaviour st k enrollment d stored :
  enrollments st !! k = Some stored →
  (courses st !! EnrollmentCreate.course_id enrollment = None →
   replace_enrollment k enrollment d st
     = (Raised (ReferenceError "Course"), st)) ∧
  (∀ course,
   courses st !! EnrollmentCreate.course_id enrollment = Some course →
   (CourseRead.is_active course = false →
    replace_enrollment k enrollment d st = (Raised PreconditionError, st)) ∧
   (CourseRead.is_active course = true →
    enrollment_full course = true →
    replace_enrollment k enrollment d st = (Raised CapacityError, st)) ∧
   (CourseRead.is_active course = true →
    enrollment_full course = false →
    ∃ st',
      replace_enrollment k enrollment d st
        = (Returned (EnrollmentRead_with_id k enrollment d), st') ∧
      enrollments st' !! k = Some (EnrollmentRead_with_id k enrollment d) ∧
      courses st' = courses st ∧
      persons st' = persons st)).
Proof.
  intros Hk. rewrite replace_enrollment_unfold, Hk. split.
  - intros ->. reflexivity.
  - intros course ->. split_and!.
    + intros ->. reflexivity.
    + intros -> ->. reflexivity.
    + intros -> ->. simpl. eexists. split; [reflexivity|]. simpl.
      split_and!; [apply lookup_insert_eq|reflexivity|reflexivity].
Qed.

(** C4, the code at the failing input: no stored person has the university
    identifier [zz9999], and [replace_enrollment] with that [student_uni]
    succeeds and stores the record, where [create_enrollment] with the same
    payload raises "Student not found". *)
Theorem replace_enrollment_unknown_student :
  any_uni "zz9999" (persons st_enrolled) = false ∧
  (create_enrollment (enrollment_payload "zz9999" course_A) (d0 101%N)
     st_enrolled).1 = Raised (ReferenceError "Student") ∧
  ∃ new st',
    replace_enrollment 100%N (enrollment_payload "zz9999" course_A) (d0 0%N)
      st_enrolled = (Returned new, st') ∧
    enrollments st' !! 100%N = Some new ∧
    EnrollmentRead.student_uni new = "zz9999".
Proof.
  split_and!.
  - vm_compute. reflexivity.
  - vm_compute. reflexivity.
  - eexists _, _. split_and!.
    + rewrite replace_enrollment_unfold.
      replace (enrollments st_enrolled !! 100%N)
        with (Some (EnrollmentRead_of_dump
                      (enrollment_payload "abc1234" course_A) (d0 100%N)))
        by (vm_compute; reflexivity).
      replace (courses st_enrolled
                 !! EnrollmentCreate.course_id
                      (enrollment_payload "zz9999" course_A))
        with (Some (CourseRead.set_current_enrollment 1
                      (CourseRead_of_dump
                         (course_payload course_A (Some 30) 0 true)
                         (d0 0%N))))
        by (vm_compute; reflexivity).
      reflexivity.
    + simpl. apply lookup_insert_eq.
    + reflexivity.
Qed.

(** ** The counter along a sequence of requests *)

(** C3, as stated, fails on [moved_trace]: enrollment [100] is created in
    [course_A], moved to [course_B] by a partial update, and deleted, then
    enrollment [101] is created in [course_B].  Both counters end at [1].
    For [course_B] there is one successful creation and one successful
    deletion of a record referencing it: the formula gives [0]. *)
Lemma counter_is_not_creates_minus_deletes :
  ¬ counter_is_creates_minus_deletes.
Proof.
  intros H. specialize (H course_B moved_trace 1).
  assert (Hc : counter course_B (run moved_trace empty_store) = Some 1)
    by (vm_compute; reflexivity).
  specialize (H Hc).
  assert (Hf : Z.max 0 (creates_ok course_B moved_trace empty_store
                        - deletes_ok course_B moved_trace empty_store) = 0)
    by (vm_compute; reflexivity).
  rewrite Hf in H. discriminate.
Qed.

(** The numbers of [moved_trace].  Counting the deletion against
    [course_A], which the record referenced when it was created, does not
    help: [course_A]'s counter is [1] as well, with one creation. *)
Example moved_trace_counts :
  let final := run moved_trace empty_store in
  counter course_A final = Some 1 ∧ counter course_B final = Some 1 ∧
  creates_ok course_A moved_trace empty_store = 1 ∧
  deletes_ok course_A moved_trace empty_store = 0 ∧
  creates_ok course_B moved_trace empty_store = 1 ∧
  deletes_ok course_B moved_trace empty_store = 1 ∧
  count_refs course_A (enrollments final) = 0 ∧
  count_refs course_B (enrollments final) = 1.
Proof. vm_compute. split_and!; reflexivity. Qed.

(** One request that keeps [C] in sync moves [C]'s counter by the creation
    or deletion it performs, and the counter stays at or above the number
    of stored enrollments referencing [C]. *)
Lemma step_keeps_sync C op st n :
  keeps_sync C op →
  counter C st = Some n →
  count_refs C (enrollments st) ≤ n →
  counter C (step op st).2 = Some (n + created C op st - deleted C op st) ∧
  count_refs C (enrollments (step op st).2)
    ≤ n + created C op st - deleted C op st.
Proof.
  intros Hop Hn Hle.
  destruct op as [p|c d|k|k c d|k u|k|e d|k|k e d|k u|k];
    try (rewrite deleted_eq); try (rewrite created_eq);
    unfold step; rewrite respond_state;
    unfold created, deleted, keeps_sync in *;
    rewrite ?Z.add_0_r, ?Z.sub_0_r.
  - rewrite create_person_unfold. unfold counter in *. simpl. by split.
  - rewrite create_course_unfold. unfold counter in *. simpl.
    rewrite lookup_insert_ne by exact Hop. by split.
  - rewrite get_course_state. by split.
  - rewrite replace_course_unfold.
    destruct (courses st !! k); simpl; [|by split].
    unfold counter in *. simpl. rewrite lookup_insert_ne by exact Hop.
    by split.
  - rewrite update_course_counter. split; [exact Hn|].
    rewrite update_course_unfold.
    destruct (courses st !! k) as [stored|]; simpl; [|exact Hle].
    destruct (CourseRead_merge stored u); simpl; exact Hle.
  - rewrite delete_course_unfold.
    destruct (courses st !! k); simpl; [|by split].
    unfold counter in *. simpl. rewrite lookup_delete_ne by exact Hop.
    by split.
  - unfold succeeded. rewrite create_enrollment_unfold.
    destruct (negb (any_uni _ _)); simpl;
      [rewrite Z.add_0_r; by split|].
    destruct (courses st !! EnrollmentCreate.course_id e) as [course|] eqn:Hc;
      simpl; [|rewrite Z.add_0_r; by split].
    destruct (negb (CourseRead.is_active course)); simpl;
      [rewrite Z.add_0_r; by split|].
    destruct (enrollment_full course); simpl;
      [rewrite Z.add_0_r; by split|].
    rewrite count_refs_insert.
    pose proof (count_refs_delete C (uuid4 d) (enrollments st)) as Hd.
    pose proof (refs_at_bounds C (uuid4 d) (enrollments st)) as Hb.
    unfold counter in *. simpl.
    destruct (decide (EnrollmentCreate.course_id e = C)) as [HeC|HeC].
    + rewrite bool_decide_eq_true_2 by exact HeC.
      rewrite HeC in *. rewrite lookup_insert_eq. rewrite Hc in Hn.
      simpl in *. injection Hn as ->. split; [reflexivity|lia].
    + rewrite bool_decide_eq_false_2 by exact HeC.
      rewrite lookup_insert_ne by exact HeC. rewrite Z.add_0_r.
      split; [exact Hn|lia].
  - rewrite get_enrollment_state. by split.
  - destruct Hop.
  - rewrite update_enrollment_unfold, Hop.
    destruct (enrollments st !! k) as [stored|] eqn:Hk; simpl; [|by split].
    destruct (EnrollmentRead_merge stored u) as [merged|] eqn:Hm; simpl;
      [|by split].
    split; [exact Hn|].
    destruct (EnrollmentRead_merge_keeps _ _ _ Hm) as [_ Hcid].
    assert (Hsame : EnrollmentRead.course_id merged
                    = EnrollmentRead.course_id stored).
    { destruct (EnrollmentUpdate.course_id u); simpl in *;
        [congruence|discriminate|discriminate]. }
    rewrite count_refs_insert, count_refs_delete. unfold refs_at.
    rewrite Hk, Hsame. destruct (decide _); lia.
  - rewrite delete_enrollment_unfold.
    pose proof (count_refs_delete C k (enrollments st)) as Hd.
    pose proof (refs_at_bounds C k (enrollments st)) as Hb.
    unfold refs_at in *.
    destruct (enrollments st !! k) as [e|] eqn:He; simpl;
      [|rewrite Z.sub_0_r; by split].
    apply counter_Some in Hn as (c & Hc & <-).
    destruct (decide (EnrollmentRead.course_id e = C)) as [HeC|HeC].
    + rewrite HeC, Hc. unfold counter. simpl. rewrite lookup_insert_eq.
      simpl. split; [f_equal; lia|lia].
    + rewrite Z.sub_0_r.
      destruct (courses st !! EnrollmentRead.course_id e) eqn:Hce;
        unfold counter; simpl.
      * rewrite lookup_insert_ne by exact HeC. rewrite Hc. simpl.
        split; [reflexivity|lia].
      * rewrite Hc. simpl. split; [reflexivity|lia].
Qed.

(** C3, amended.  Let [C] be a stored course whose counter is at least the
    number of stored enrollments referencing it (as right after its
    creation), and let no request of the sequence replace an enrollment,
    set an enrollment's [course_id] by partial update, or create, replace
    or delete the Course [C] itself.  Then after the sequence [C]'s counter
    is its initial value plus the number of successful creations
    referencing [C] minus the number of successful deletions of records
    referencing [C]; the difference never drops below the number of
    enrollments still referencing [C], so the floor at zero is never
    reached. *)
Theorem counter_is_initial_plus_creates_minus_deletes
    (C : UUID) (ops : list Op) (st : Store) (n : Z) :
  counter C st = Some n →
  count_refs C (enrollments st) ≤ n →
  Forall (keeps_sync C) ops →
  counter C (run ops st)
    = Some (n + creates_ok C ops st - deletes_ok C ops st) ∧
  count_refs C (enrollments (run ops st))
    ≤ n + creates_ok C ops st - deletes_ok C ops st.
Proof.
  intros Hn Hle Hops. revert st n Hn Hle.
  induction Hops as [|op ops Hop Hops IH]; intros st n Hn Hle; simpl.
  - rewrite Z.add_0_r, Z.sub_0_r. by split.
  - destruct (step_keeps_sync C op st n Hop Hn Hle) as [Hn1 Hle1].
    destruct (IH _ _ Hn1 Hle1) as [Hn2 Hle2].
    split.
    + rewrite Hn2. f_equal. lia.
    + lia.
Qed.

(** ** Stored courses satisfy their field constraints *)

Lemma CourseRead_merge_valid stored update merged :
  CourseRead.valid stored → CourseUpdate.valid update →
  CourseRead_merge stored update = Some merged →
  CourseRead.valid merged.
Proof.
  intros (Hcr & Hmax & Hcur) (Hucr & Humax) H.
  unfold CourseRead_merge in H.
  destruct (merge_required (CourseRead.code stored) _); simpl in H;
    [|discriminate].
  destruct (merge_required (CourseRead.title stored) _); simpl in H;
    [|discriminate].
  destruct (merge_required (CourseRead.credits stored) _) as [cr|] eqn:Ecr;
    simpl in H; [|discriminate].
  destruct (merge_required (CourseRead.department stored) _); simpl in H;
    [|discriminate].
  destruct (merge_required (CourseRead.semester stored) _); simpl in H;
    [|discriminate].
  destruct (merge_required (CourseRead.prerequisites stored) _); simpl in H;
    [|discriminate].
  destruct (merge_required (CourseRead.is_active stored) _); simpl in H;
    [|discriminate].
  injection H as <-. unfold CourseRead.valid. simpl. split; [|split].
  - destruct (CourseUpdate.credits update) as [| |v] eqn:Ev; simpl in Ecr;
      [| discriminate |]; injection Ecr as <-; [exact Hcr|].
    by apply Hucr.
  - intros m Hm.
    destruct (CourseUpdate.max_enrollment update) as [| |v] eqn:Ev;
      simpl in Hm; [by apply Hmax | discriminate |].
    injection Hm as <-. by apply Humax.
  - exact Hcur.
Qed.

Lemma set_current_enrollment_valid n c :
  CourseRead.valid c → 0 ≤ n →
  CourseRead.valid (CourseRead.set_current_enrollment n c).
Proof.
  intros (? & ? & ?) ?. unfold CourseRead.valid. simpl. split; [|split]; done.
Qed.

Lemma step_courses_valid op st :
  op_valid op → courses_valid st → courses_valid (step op st).2.
Proof.
  unfold courses_valid. intros Hop Hst.
  destruct op as [p|c d|k|k c d|k u|k|e d|k|k e d|k u|k];
    unfold step; rewrite respond_state; simpl in Hop.
  - rewrite create_person_unfold. exact Hst.
  - rewrite create_course_unfold. simpl.
    apply map_Forall_insert_2; [exact Hop|exact Hst].
  - by rewrite get_course_state.
  - rewrite replace_course_unfold.
    destruct (courses st !! k); simpl; [|exact Hst].
    apply map_Forall_insert_2; [exact Hop|exact Hst].
  - rewrite update_course_unfold.
    destruct (courses st !! k) as [stored|] eqn:Hk; simpl; [|exact Hst].
    destruct (CourseRead_merge stored u) as [merged|] eqn:Hm; simpl;
      [|exact Hst].
    apply map_Forall_insert_2; [|exact Hst].
    eapply CourseRead_merge_valid; [|exact Hop|exact Hm].
    by apply (Hst k).
  - rewrite delete_course_unfold.
    destruct (courses st !! k); simpl; [|exact Hst].
    by apply map_Forall_delete.
  - rewrite create_enrollment_unfold.
    destruct (negb (any_uni _ _)); simpl; [exact Hst|].
    destruct (courses st !! EnrollmentCreate.course_id e) as [course|] eqn:Hc;
      simpl; [|exact Hst].
    destruct (negb (CourseRead.is_active course)); simpl; [exact Hst|].
    destruct (enrollment_full course); simpl; [exact Hst|].
    apply map_Forall_insert_2; [|exact Hst].
    pose proof (Hst _ _ Hc) as Hv.
    apply set_current_enrollment_valid; [exact Hv|].
    destruct Hv as (_ & _ & ?). lia.
  - by rewrite get_enrollment_state.
  - rewrite replace_enrollment_unfold.
    destruct (enrollments st !! k); simpl; [|exact Hst].
    destruct (courses st !! EnrollmentCreate.course_id e) as [course|];
      simpl; [|exact Hst].
    destruct (negb (CourseRead.is_active course)); simpl; [exact Hst|].
    destruct (enrollment_full course); simpl; exact Hst.
  - rewrite update_enrollment_unfold.
    destruct (enrollments st !! k) as [stored|]; simpl; [|exact Hst].
    destruct (match field_value _ with Some _ => _ | None => _ end);
      simpl; [exact Hst|].
    destruct (EnrollmentRead_merge stored u); simpl; exact Hst.
  - rewrite delete_enrollment_unfold.
    destruct (enrollments st !! k) as [e|]; simpl; [|exact Hst].
    destruct (courses st !! EnrollmentRead.course_id e) as [course|] eqn:Hc;
      simpl; [|exact Hst].
    apply map_Forall_insert_2; [|exact Hst].
    apply set_current_enrollment_valid; [by apply (Hst _ _ Hc)|lia].
Qed.

(** From the empty stores, any sequence of requests with valid bodies
    leaves only valid courses stored: [max_enrollment], when set, is at
    least [1], and [current_enrollment] is never negative. *)
Lemma run_courses_valid ops st :
  Forall op_valid ops → courses_valid st → courses_valid (run ops st).
Proof.
  intros Hops. revert st.
  induction Hops as [|op ops Hop Hops IH]; intros st Hst; simpl;
    [exact Hst|].
  apply IH. by apply step_courses_valid.
Qed.

Lemma empty_store_valid : courses_valid empty_store.
Proof. unfold courses_valid. simpl. apply map_Forall_empty. Qed.

(** * Worked instances *)

Lemma alice_known_st_courses : student_known "abc1234" st_courses.
Proof. apply any_uni_true. vm_compute. reflexivity. Defined.

Lemma course_record_valid k m cur active :
  1 ≤ m → 0 ≤ cur → CourseRead.valid (course_record k (Some m) cur active).
Proof.
  intros Hm Hcur. unfold CourseRead.valid. simpl.
  split; [lia|]. split; [|exact Hcur]. intros m' [= <-]. exact Hm.
Defined.


(** C2 at a store whose only course is not active: the precondition error,
    and the same store. *)
Lemma create_enrollment_failure_no_effect_witness :
  student_known "abc1234" st_inactive ∧
  courses st_inactive !! course_A = Some (course_record course_A None 0 false) ∧
  create_enrollment (enrollment_payload "abc1234" course_A) (d0 100%N)
    st_inactive = (Raised PreconditionError, st_inactive).
Proof.
  assert (Hs : student_known "abc1234" st_inactive)
    by (apply any_uni_true; vm_compute; reflexivity).
  assert (Hc : courses st_inactive !! course_A
               = Some (course_record course_A None 0 false))
    by (vm_compute; reflexivity).
  split_and!; [exact Hs|exact Hc|].
  destruct (create_enrollment_failure_no_effect st_inactive
              (enrollment_payload "abc1234" course_A) (d0 100%N))
    as (_ & _ & Hinactive & _).
  apply (Hinactive _ Hs Hc). reflexivity.
Defined.

(** C8 at the store whose course has one seat, taken: [current_enrollment]
    equals [max_enrollment], and creation raises the capacity error. *)
Lemma create_enrollment_capacity_error_iff_witness :
  student_known "abc1234" st_full ∧
  courses st_full !! course_A = Some (course_record course_A (Some 1) 1 true) ∧
  create_enrollment (enrollment_payload "abc1234" course_A) (d0 101%N)
    st_full = (Raised CapacityError, st_full).
Proof.
  assert (Hs : student_known "abc1234" st_full)
    by (apply any_uni_true; vm_compute; reflexivity).
  assert (Hc : courses st_full !! course_A
               = Some (course_record course_A (Some 1) 1 true))
    by (vm_compute; reflexivity).
  split_and!; [exact Hs|exact Hc|].
  destruct (create_enrollment_capacity_error_iff st_full
              (enrollment_payload "abc1234" course_A) (d0 101%N)
              (course_record course_A (Some 1) 1 true) Hs Hc eq_refl)
    as [_ Hfull].
  - apply course_record_valid; lia.
  - apply (Hfull 1); reflexivity.
Defined.

(** C7 at the store with enrollment [100] in [course_A]: the delete
    succeeds, the counter goes from [1] to [0], and a second delete raises
    the not-found error. *)
Lemma delete_enrollment_behaviour_witness :
  enrollments st_enrolled !! 100%N
    = Some (enrollment_record 100%N "abc1234" course_A) ∧
  ∃ st',
    delete_enrollment 100%N st_enrolled = (Returned tt, st') ∧
    enrollments st' !! 100%N = None ∧
    counter course_A st' = Some 0 ∧
    delete_enrollment 100%N st' = (Raised (NotFoundError "Enrollment"), st').
Proof.
  assert (He : enrollments st_enrolled !! 100%N
               = Some (enrollment_record 100%N "abc1234" course_A))
    by (vm_compute; reflexivity).
  split; [exact He|].
  destruct (delete_enrollment_behaviour st_enrolled 100%N) as [_ Hok].
  destruct (Hok _ He) as (st' & Hrun & Hen & _ & _ & Hcourse & Hagain).
  assert (Hc : courses st_enrolled
                 !! EnrollmentRead.course_id
                      (enrollment_record 100%N "abc1234" course_A)
               = Some (course_record course_A (Some 30) 1 true))
    by (vm_compute; reflexivity).
  rewrite Hc in Hcourse. destruct Hcourse as (_ & Hcnt & _).
  exists st'. split_and!.
  - exact Hrun.
  - rewrite Hen. apply lookup_delete_eq.
  - exact Hcnt.
  - exact Hagain.
Defined.

(** C10 at the store with enrollment [100] in [course_A]: moved to
    [course_B] and deleted, [course_A] keeps counter [1] with no enrollment
    left that references it. *)
Lemma update_course_id_then_delete_witness :
  enrollments st_enrolled !! 100%N
    = Some (enrollment_record 100%N "abc1234" course_A) ∧
  courses st_enrolled !! course_A
    = Some (course_record course_A (Some 30) 1 true) ∧
  courses st_enrolled !! course_B = Some (course_record course_B None 0 true) ∧
  ∃ st1 st2,
    update_enrollment 100%N move_to_B st_enrolled
      = (Returned (enrollment_record 100%N "abc1234" course_B), st1) ∧
    delete_enrollment 100%N st1 = (Returned tt, st2) ∧
    counter course_B st2 = Some 0 ∧
    counter course_A st2 = Some 1 ∧
    count_refs course_A (enrollments st2) = 0.
Proof.
  assert (He : enrollments st_enrolled !! 100%N
               = Some (enrollment_record 100%N "abc1234" course_A))
    by (vm_compute; reflexivity).
  assert (HA : courses st_enrolled !! course_A
               = Some (course_record course_A (Some 30) 1 true))
    by (vm_compute; reflexivity).
  assert (HB : courses st_enrolled !! course_B
               = Some (course_record course_B None 0 true))
    by (vm_compute; reflexivity).
  split_and!; [exact He|exact HA|exact HB|].
  destruct (update_course_id_then_delete st_enrolled 100%N course_A course_B
              (enrollment_record 100%N "abc1234" course_A)
              (enrollment_record 100%N "abc1234" course_B)
              (course_record course_A (Some 30) 1 true)
              (course_record course_B None 0 true)
              move_to_B He eq_refl)
    as (st1 & st2 & Hupd & _ & _ & _ & _ & Hdel & HcB & HcA & Hover).
  - vm_compute. discriminate.
  - exact HA.
  - exact HB.
  - reflexivity.
  - reflexivity.
  - exists st1, st2. split_and!; [exact Hupd|exact Hdel|exact HcB|exact HcA|].
    assert (Hsync : count_refs course_A (enrollments st_enrolled)
                    = CourseRead.current_enrollment
                        (course_record course_A (Some 30) 1 true))
      by (vm_compute; reflexivity).
    specialize (Hover Hsync). rewrite HcA in Hover.
    injection Hover as Hover. simpl in Hover. lia.
Defined.

(** C5 at the store with two courses: a successful enrollment in
    [course_A] takes its counter from [0] to [1]. *)
Lemma counter_changes_by_design_witness :
  counter course_A st_courses = Some 0 ∧
  counter course_A
    (step (CreateEnrollment (enrollment_payload "abc1234" course_A)
             (d0 100%N)) st_courses).2 = Some 1 ∧
  1 = 0 + created course_A
            (CreateEnrollment (enrollment_payload "abc1234" course_A)
               (d0 100%N)) st_courses.
Proof.
  split_and!.
  - vm_compute. reflexivity.
  - vm_compute. reflexivity.
  - apply (counter_changes_by_design st_courses
             (CreateEnrollment (enrollment_payload "abc1234" course_A)
                (d0 100%N)) course_A 0 1); vm_compute; reflexivity.
Defined.

(** C6 at the store with enrollment [100] in [course_A]: closing the course
    by partial update leaves its counter at [1]. *)
Lemma patch_keeps_counter_put_overwrites_witness :
  counter course_A st_enrolled = Some 1 ∧
  counter course_A (update_course course_A close_course st_enrolled).2
    = Some 1.
Proof.
  assert (Hn : counter course_A st_enrolled = Some 1)
    by (vm_compute; reflexivity).
  split; [exact Hn|].
  destruct patch_keeps_counter_put_overwrites as [Hpatch _].
  apply Hpatch. exact Hn.
Defined.

(** C3 at the store with two courses, along [sync_trace]: two successful
    creations and one successful deletion leave [course_A] at [1]. *)
Lemma counter_is_initial_plus_creates_minus_deletes_witness :
  counter course_A st_courses = Some 0 ∧
  count_refs course_A (enrollments st_courses) ≤ 0 ∧
  Forall (keeps_sync course_A) sync_trace ∧
  counter course_A (run sync_trace st_courses)
    = Some (0 + creates_ok course_A sync_trace st_courses
              - deletes_ok course_A sync_trace st_courses) ∧
  creates_ok course_A sync_trace st_courses = 2 ∧
  deletes_ok course_A sync_trace st_courses = 1.
Proof.
  assert (Hn : counter course_A st_courses = Some 0)
    by (vm_compute; reflexivity).
  assert (Hle : count_refs course_A (enrollments st_courses) ≤ 0)
    by (vm_compute; discriminate).
  assert (Hops : Forall (keeps_sync course_A) sync_trace)
    by (repeat constructor).
  split_and!; [exact Hn|exact Hle|exact Hops| |vm_compute; reflexivity
              |vm_compute; reflexivity].
  apply (counter_is_initial_plus_creates_minus_deletes
           course_A sync_trace st_courses 0 Hn Hle Hops).
Defined.

(** * More of the Course endpoints *)

Lemma get_course_unfold k st :
  get_course k st =
  match courses st !! k with
  | None => (Raised (HTTPException 404 "Course not found"), st)
  | Some c => (Returned c, st)
  end.
Proof.
  unfold get_course. unfold_M.
  destruct (courses st !! k) as [c|] eqn:Hk.
  - rewrite (member_true _ _ _ Hk). simpl. by rewrite Hk.
  - by rewrite (member_false _ _ Hk).
Qed.

Lemma get_enrollment_unfold k st :
  get_enrollment k st =
  match enrollments st !! k with
  | None => (Raised (HTTPException 404 "Enrollment not found"), st)
  | Some e => (Returned e, st)
  end.
Proof.
  unfold get_enrollment. unfold_M.
  destruct (enrollments st !! k) as [e|] eqn:Hk.
  - rewrite (member_true _ _ _ Hk). simpl. by rewrite Hk.
  - by rewrite (member_false _ _ Hk).
Qed.

Lemma store_eta st : mkStore (persons st) (courses st) (enrollments st) = st.
Proof. by destruct st. Qed.

(** X1. The four Course endpoints that take an identifier raise
    [HTTPException(404, "Course not found")] and leave the store as it was
    when the identifier is not a key of [courses]. *)
Theorem course_endpoints_missing_id
    (st : Store) (k : UUID) (course : CourseCreate.t) (d : Defaults)
    (update : CourseUpdate.t) :
  courses st !! k = None →
  get_course k st = (Raised (NotFoundError "Course"), st) ∧
  replace_course k course d st = (Raised (NotFoundError "Course"), st) ∧
  update_course k update st = (Raised (NotFoundError "Course"), st) ∧
  delete_course k st = (Raised (NotFoundError "Course"), st).
Proof.
  intros Hk.
  rewrite get_course_unfold, replace_course_unfold, update_course_unfold,
    delete_course_unfold, Hk.
  by split_and!.
Qed.

(** X2. [create_course] always succeeds; the record it returns is the one
    [get_course] returns for the payload's [id] afterwards; no other
    course, no person and no enrollment changes. *)
Theorem create_course_then_get
    (st : Store) (course : CourseCreate.t) (d : Defaults) :
  ∃ st',
    create_course course d st = (Returned (CourseRead_of_dump course d), st') ∧
    get_course (CourseCreate.id course) st'
      = (Returned (CourseRead_of_dump course d), st') ∧
    (∀ k, k ≠ CourseCreate.id course → courses st' !! k = courses st !! k) ∧
    persons st' = persons st ∧
    enrollments st' = enrollments st.
Proof.
  eexists. split; [apply create_course_unfold|].
  rewrite get_course_unfold. simpl. rewrite lookup_insert_eq.
  split_and!; try reflexivity.
  intros k Hk. by apply lookup_insert_ne.
Qed.

Lemma CourseRead_merge_empty stored :
  CourseRead_merge stored CourseUpdate.empty = Some stored.
Proof. by destruct stored. Qed.

(** X3. A partial update of a stored course with no field set returns the
    stored record and leaves the store exactly as it was. *)
Theorem update_course_empty_payload (st : Store) (k : UUID) (c : CourseRead.t) :
  courses st !! k = Some c →
  update_course k CourseUpdate.empty st = (Returned c, st).
Proof.
  intros Hk. rewrite update_course_unfold, Hk, CourseRead_merge_empty.
  f_equal. rewrite insert_id by exact Hk. apply store_eta.
Qed.

Lemma merge_required_Some {T} (old : T) (f : Field T) :
  f ≠ SetNone → ∃ v, merge_required old f = Some v.
Proof. destruct f; simpl; eauto. congruence. Qed.

Lemma merge_required_None {T} (old : T) (f : Field T) :
  merge_required old f = None ↔ f = SetNone.
Proof. destruct f; simpl; split; congruence. Qed.

Lemma CourseRead_merge_succeeds stored update :
  is_Some (CourseRead_merge stored update) ↔ course_update_accepted update.
Proof.
  unfold course_update_accepted, CourseRead_merge, is_Some.
  destruct update as [c t de cr dp i s sd ed mx tf pr ia]; simpl.
  destruct c, t, cr, dp, s, pr, ia; simpl;
    (split; [intros [x Hx]; try discriminate; split_and!; congruence
            |intros (?&?&?&?&?&?&?); try congruence; eauto]).
Qed.

(** X4. On a stored course, a partial update succeeds exactly when it sets
    none of [code], [title], [credits], [department], [semester],
    [prerequisites], [is_active] to null; the constructor rejects it
    otherwise and the store is unchanged.  A successful update rewrites
    that one course only and keeps its [id], [current_enrollment],
    [created_at] and [updated_at]. *)
Theorem update_course_accepted_iff
    (st : Store) (k : UUID) (stored : CourseRead.t) (update : CourseUpdate.t) :
  courses st !! k = Some stored →
  (course_update_accepted update →
   ∃ merged st',
     update_course k update st = (Returned merged, st') ∧
     courses st' !! k = Some merged ∧
     (∀ j, j ≠ k → courses st' !! j = courses st !! j) ∧
     persons st' = persons st ∧ enrollments st' = enrollments st ∧
     CourseRead.id merged = CourseRead.id stored ∧
     CourseRead.current_enrollment merged
       = CourseRead.current_enrollment stored ∧
     CourseRead.created_at merged = CourseRead.created_at stored ∧
     CourseRead.updated_at merged = CourseRead.updated_at stored) ∧
  (¬ course_update_accepted update →
   update_course k update st = (Raised ValidationError, st)).
Proof.
  intros Hk. rewrite update_course_unfold, Hk. split.
  - intros Hacc.
    destruct (proj2 (CourseRead_merge_succeeds stored update) Hacc)
      as [merged Hm].
    rewrite Hm.
    eexists _, _. split; [reflexivity|]. simpl.
    destruct (CourseRead_merge_keeps _ _ _ Hm) as [Hid Hcur].
    split_and!; try done.
    + apply lookup_insert_eq.
    + intros j Hj. by apply lookup_insert_ne.
    + clear -Hm. unfold CourseRead_merge in Hm.
      repeat match type of Hm with
             | context [merge_required ?a ?b] =>
                 destruct (merge_required a b); simpl in Hm; [|discriminate]
             end.
      by injection Hm as <-.
    + clear -Hm. unfold CourseRead_merge in Hm.
      repeat match type of Hm with
             | context [merge_required ?a ?b] =>
                 destruct (merge_required a b); simpl in Hm; [|discriminate]
             end.
      by injection Hm as <-.
  - intros Hno.
    destruct (CourseRead_merge stored update) as [merged|] eqn:Hm;
      [|reflexivity].
    exfalso. apply Hno, (CourseRead_merge_succeeds stored). by eexists.
Qed.

(** X5. Deleting a stored course removes that key only and leaves every
    enrollment in place, the ones that reference it included: afterwards
    [get_course] raises the not-found error, a [create_enrollment] for it
    by a known student raises "Course not found", and deleting an
    enrollment that references it succeeds and changes no course. *)
Theorem delete_course_leaves_enrollments
    (st : Store) (C : UUID) (c : CourseRead.t) :
  courses st !! C = Some c →
  ∃ st1,
    delete_course C st = (Returned tt, st1) ∧
    courses st1 = delete C (courses st) ∧
    enrollments st1 = enrollments st ∧
    persons st1 = persons st ∧
    get_course C st1 = (Raised (NotFoundError "Course"), st1) ∧
    (∀ enrollment d,
       EnrollmentCreate.course_id enrollment = C →
       student_known (EnrollmentCreate.student_uni enrollment) st →
       create_enrollment enrollment d st1
         = (Raised (ReferenceError "Course"), st1)) ∧
    (∀ k e,
       enrollments st !! k = Some e →
       EnrollmentRead.course_id e = C →
       ∃ st2,
         delete_enrollment k st1 = (Returned tt, st2) ∧
         courses st2 = courses st1 ∧
         enrollments st2 = delete k (enrollments st)).
Proof.
  intros HC. rewrite delete_course_unfold, HC.
  eexists. split; [reflexivity|]. simpl. split_and!; try reflexivity.
  - rewrite get_course_unfold. simpl. by rewrite lookup_delete_eq.
  - intros enrollment d HeC Hstu. rewrite create_enrollment_unfold. simpl.
    apply any_uni_true in Hstu. rewrite Hstu, HeC, lookup_delete_eq.
    reflexivity.
  - intros k e Hk HeC. rewrite delete_enrollment_unfold. simpl.
    rewrite Hk, HeC, lookup_delete_eq. eexists. by split_and!.
Qed.

(** X6. A full replacement stores, under the identifier of the path, a
    record whose [id] is that identifier: the [id] of the payload is not
    used, the number of stored courses does not change, and no other
    course, no person and no enrollment changes. *)
Theorem replace_course_ignores_payload_id
    (st : Store) (k j : UUID) (course : CourseCreate.t) (d : Defaults)
    (old : CourseRead.t) :
  courses st !! k = Some old →
  replace_course k (CourseCreate_with_id j course) d st
    = replace_course k course d st ∧
  ∃ new st',
    replace_course k course d st = (Returned new, st') ∧
    courses st' !! k = Some new ∧
    CourseRead.id new = k ∧
    size (courses st') = size (courses st) ∧
    (∀ i, i ≠ k → courses st' !! i = courses st !! i) ∧
    persons st' = persons st ∧ enrollments st' = enrollments st.
Proof.
  intros Hk. rewrite !replace_course_unfold, Hk. split; [reflexivity|].
  eexists _, _. split; [reflexivity|]. simpl. split_and!; try reflexivity.
  - apply lookup_insert_eq.
  - apply map_size_insert_Some. by eexists.
  - intros i Hi. by apply lookup_insert_ne.
Qed.

(** ** Invariants along a sequence of requests *)

Lemma step_keys_match_ids op st :
  keys_match_ids st → keys_match_ids (step op st).2.
Proof.
  unfold keys_match_ids. intros (Hc & He).
  destruct op as [p|c d|k|k c d|k u|k|e d|k|k e d|k u|k];
    unfold step; rewrite respond_state.
  - rewrite create_person_unfold. simpl. by split.
  - rewrite create_course_unfold. simpl. split_and!; try done.
    by apply map_Forall_insert_2.
  - by rewrite get_course_state.
  - rewrite replace_course_unfold.
    destruct (courses st !! k); simpl; [|done].
    split_and!; try done. by apply map_Forall_insert_2.
  - rewrite update_course_unfold.
    destruct (courses st !! k) as [stored|] eqn:Hk; simpl; [|done].
    destruct (CourseRead_merge stored u) as [merged|] eqn:Hm; simpl; [|done].
    split_and!; try done. apply map_Forall_insert_2; [|done].
    destruct (CourseRead_merge_keeps _ _ _ Hm) as [-> _]. by apply Hc.
  - rewrite delete_course_unfold.
    destruct (courses st !! k); simpl; [|done].
    split_and!; try done. by apply map_Forall_delete.
  - rewrite create_enrollment_unfold.
    destruct (negb (any_uni _ _)); simpl; [done|].
    destruct (courses st !! EnrollmentCreate.course_id e) as [course|] eqn:Hk;
      simpl; [|done].
    destruct (negb (CourseRead.is_active course)); simpl; [done|].
    destruct (enrollment_full course); simpl; [done|].
    split_and!.
    + apply map_Forall_insert_2; [|done]. simpl. by apply Hc.
    + by apply map_Forall_insert_2.
  - by rewrite get_enrollment_state.
  - rewrite replace_enrollment_unfold.
    destruct (enrollments st !! k); simpl; [|done].
    destruct (courses st !! EnrollmentCreate.course_id e) as [course|];
      simpl; [|done].
    destruct (negb (CourseRead.is_active course)); simpl; [done|].
    destruct (enrollment_full course); simpl; [done|].
    split_and!; try done. by apply map_Forall_insert_2.
  - rewrite update_enrollment_unfold.
    destruct (enrollments st !! k) as [stored|] eqn:Hk; simpl; [|done].
    destruct (match field_value _ with Some _ => _ | None => _ end);
      simpl; [done|].
    destruct (EnrollmentRead_merge stored u) as [merged|] eqn:Hm; simpl;
      [|done].
    split_and!; try done. apply map_Forall_insert_2; [|done].
    destruct (EnrollmentRead_merge_keeps _ _ _ Hm) as [-> _]. by apply He.
  - rewrite delete_enrollment_unfold.
    destruct (enrollments st !! k) as [e|]; simpl; [|done].
    destruct (courses st !! EnrollmentRead.course_id e) as [course|] eqn:Hk;
      simpl.
    + split_and!; [|by apply map_Forall_delete].
      apply map_Forall_insert_2; [|done]. simpl. by apply Hc.
    + split_and!; try done. by apply map_Forall_delete.
Qed.

(** X7. Whatever the sequence of requests from the empty stores, every
    stored course and every stored enrollment carries the key it is stored
    under as its [id].  (The endpoints that are not requests of [Op], those
    of Person and Address, write neither [courses] nor [enrollments].) *)
Theorem reachable_keys_match_ids (ops : list Op) :
  keys_match_ids (run ops empty_store).
Proof.
  assert (H0 : keys_match_ids empty_store).
  { unfold keys_match_ids. simpl. split_and!; apply map_Forall_empty. }
  revert H0. generalize empty_store.
  induction ops as [|op ops IH]; intros st Hst; simpl; [exact Hst|].
  apply IH. by apply step_keys_match_ids.
Qed.

(** X8. From the empty stores, a sequence of requests whose bodies satisfy
    the numeric constraints of their models leaves only courses that
    satisfy them in the store: [credits] within 1..6, [max_enrollment] at
    least 1 when set, and [current_enrollment] never negative. *)
Theorem reachable_courses_valid (ops : list Op) :
  Forall op_valid ops → courses_valid (run ops empty_store).
Proof. intros Hops. apply run_courses_valid; [exact Hops|apply empty_store_valid]. Qed.

Lemma step_within_capacity op st :
  writes_course op = false →
  courses_valid st →
  within_capacity st → within_capacity (step op st).2.
Proof.
  unfold within_capacity. intros Hop Hvalid Hst.
  destruct op as [p|c d|k|k c d|k u|k|e d|k|k e d|k u|k];
    try discriminate; unfold step; rewrite respond_state.
  - by rewrite create_person_unfold.
  - by rewrite get_course_state.
  - rewrite delete_course_unfold.
    destruct (courses st !! k); simpl; [|done]. by apply map_Forall_delete.
  - rewrite create_enrollment_unfold.
    destruct (negb (any_uni _ _)); simpl; [done|].
    destruct (courses st !! EnrollmentCreate.course_id e) as [course|] eqn:Hk;
      simpl; [|done].
    destruct (negb (CourseRead.is_active course)); simpl; [done|].
    destruct (enrollment_full course) eqn:Hfull; simpl; [done|].
    apply map_Forall_insert_2; [|done]. simpl. intros m Hm.
    unfold enrollment_full in Hfull. rewrite Hm in Hfull.
    destruct (Hvalid _ _ Hk) as (_ & Hmax & _). specialize (Hmax m Hm).
    destruct (Z.eqb_spec m 0); [lia|]. apply Z.leb_gt in Hfull. lia.
  - by rewrite get_enrollment_state.
  - rewrite replace_enrollment_unfold.
    destruct (enrollments st !! k); simpl; [|done].
    destruct (courses st !! EnrollmentCreate.course_id e) as [course|];
      simpl; [|done].
    destruct (negb (CourseRead.is_active course)); simpl; [done|].
    by destruct (enrollment_full course).
  - rewrite update_enrollment_unfold.
    destruct (enrollments st !! k) as [stored|]; simpl; [|done].
    destruct (match field_value _ with Some _ => _ | None => _ end);
      simpl; [done|].
    by destruct (EnrollmentRead_merge stored u).
  - rewrite delete_enrollment_unfold.
    destruct (enrollments st !! k) as [e|]; simpl; [|done].
    destruct (courses st !! EnrollmentRead.course_id e) as [course|] eqn:Hk;
      simpl; [|done].
    apply map_Forall_insert_2; [|done]. simpl. intros m Hm.
    pose proof (Hst _ _ Hk m Hm).
    destruct (Hvalid _ _ Hk) as (_ & Hmax & _). specialize (Hmax m Hm). lia.
Qed.

Lemma writes_course_false_valid op : writes_course op = false → op_valid op.
Proof. by destruct op. Qed.

(** X9. Enrollment requests never push a course above its capacity: if the
    stored courses satisfy their field constraints and none is above its
    [max_enrollment], this still holds after any sequence of requests
    that contains no creation, replacement or partial update of a
    Course. *)
Theorem run_within_capacity (ops : list Op) (st : Store) :
  Forall (λ op, writes_course op = false) ops →
  courses_valid st →
  within_capacity st →
  within_capacity (run ops st).
Proof.
  intros Hops. revert st.
  induction Hops as [|op ops Hop Hops IH]; intros st Hvalid Hst; simpl;
    [exact Hst|].
  apply IH.
  - apply step_courses_valid; [by apply writes_course_false_valid|exact Hvalid].
  - by apply step_within_capacity.
Qed.

(** ** A partial update of a Course and the next enrollment *)

(** X10. Closing a course by partial update takes effect at once: after a
    successful update with [is_active] set to false, every
    [create_enrollment] for that course by a known student raises
    "Course is not active" and changes nothing. *)
Theorem deactivated_course_rejects_enrollment
    (st st1 : Store) (C : UUID) (update : CourseUpdate.t)
    (merged : CourseRead.t) (enrollment : EnrollmentCreate.t) (d : Defaults) :
  update_course C update st = (Returned merged, st1) →
  CourseUpdate.is_active update = SetTo false →
  EnrollmentCreate.course_id enrollment = C →
  student_known (EnrollmentCreate.student_uni enrollment) st →
  create_enrollment enrollment d st1 = (Raised PreconditionError, st1).
Proof.
  intros Hupd Hia HeC Hstu. rewrite update_course_unfold in Hupd.
  destruct (courses st !! C) as [stored|] eqn:HC; [|discriminate].
  destruct (CourseRead_merge stored update) as [m|] eqn:Hm; [|discriminate].
  injection Hupd as <- <-.
  assert (Hact : CourseRead.is_active m = false).
  { clear -Hm Hia. unfold CourseRead_merge in Hm. rewrite Hia in Hm.
    repeat match type of Hm with
           | context [merge_required ?a ?b] =>
               destruct (merge_required a b); simpl in Hm; [|discriminate]
           end.
    by injection Hm as <-. }
  rewrite create_enrollment_unfold. simpl.
  apply any_uni_true in Hstu. rewrite Hstu, HeC, lookup_insert_eq, Hact.
  reflexivity.
Qed.

(** X11. Clearing [max_enrollment] by partial update lifts the capacity
    limit: after a successful update that sets [max_enrollment] to null
    and does not touch [is_active], [create_enrollment] for that active
    course by a known student succeeds and adds one to the counter,
    whatever the counter was. *)
Theorem cleared_capacity_admits_enrollment
    (st st1 : Store) (C : UUID) (stored merged : CourseRead.t)
    (update : CourseUpdate.t) (enrollment : EnrollmentCreate.t)
    (d : Defaults) :
  courses st !! C = Some stored →
  CourseRead.is_active stored = true →
  update_course C update st = (Returned merged, st1) →
  CourseUpdate.max_enrollment update = SetNone →
  CourseUpdate.is_active update = Unset →
  EnrollmentCreate.course_id enrollment = C →
  student_known (EnrollmentCreate.student_uni enrollment) st →
  ∃ new st2,
    create_enrollment enrollment d st1 = (Returned new, st2) ∧
    counter C st2 = Some (CourseRead.current_enrollment stored + 1).
Proof.
  intros HC Hact Hupd Hmax Hia HeC Hstu. rewrite update_course_unfold, HC in Hupd.
  destruct (CourseRead_merge stored update) as [m|] eqn:Hm; [|discriminate].
  injection Hupd as <- <-.
  assert (Hm' : CourseRead.is_active m = true ∧
                CourseRead.max_enrollment m = None ∧
                CourseRead.current_enrollment m
                  = CourseRead.current_enrollment stored).
  { clear -Hm Hia Hmax Hact. unfold CourseRead_merge in Hm.
    rewrite Hia, Hmax in Hm.
    repeat match type of Hm with
           | context [merge_required ?a ?b] =>
               destruct (merge_required a b) eqn:?; simpl in Hm; [|discriminate]
           end.
    injection Hm as <-. simpl in *. split_and!; congruence. }
  destruct Hm' as (Ha & Hx & Hcur).
  rewrite create_enrollment_unfold. simpl.
  apply any_uni_true in Hstu. rewrite Hstu, HeC, lookup_insert_eq, Ha.
  unfold enrollment_full. rewrite Hx. simpl.
  eexists _, _. split; [reflexivity|].
  unfold counter. simpl. rewrite lookup_insert_eq. simpl. by rewrite Hcur.
Qed.

(** * More of the Enrollment endpoints *)

(** X12. The four Enrollment endpoints that take an identifier raise
    [HTTPException(404, "Enrollment not found")] before any other check
    and leave the store as it was when the identifier is not a key of
    [enrollments]. *)
Theorem enrollment_endpoints_missing_id
    (st : Store) (k : UUID) (enrollment : EnrollmentCreate.t) (d : Defaults)
    (update : EnrollmentUpdate.t) :
  enrollments st !! k = None →
  get_enrollment k st = (Raised (NotFoundError "Enrollment"), st) ∧
  replace_enrollment k enrollment d st
    = (Raised (NotFoundError "Enrollment"), st) ∧
  update_enrollment k update st = (Raised (NotFoundError "Enrollment"), st) ∧
  delete_enrollment k st = (Raised (NotFoundError "Enrollment"), st).
Proof.
  intros Hk.
  rewrite get_enrollment_unfold, replace_enrollment_unfold,
    update_enrollment_unfold, delete_enrollment_unfold, Hk.
  by split_and!.
Qed.

(** X13. The record a successful [create_enrollment] returns is the one
    [get_enrollment] returns for its [id] afterwards, and reading it
    changes nothing. *)
Theorem create_enrollment_then_get
    (st st' : Store) (enrollment : EnrollmentCreate.t) (d : Defaults)
    (new : EnrollmentRead.t) :
  create_enrollment enrollment d st = (Returned new, st') →
  EnrollmentRead.id new = uuid4 d ∧
  get_enrollment (EnrollmentRead.id new) st' = (Returned new, st').
Proof.
  rewrite create_enrollment_unfold.
  destruct (negb (any_uni _ _)); [discriminate|].
  destruct (courses st !! _) as [course|]; [|discriminate].
  destruct (negb _); [discriminate|].
  destruct (enrollment_full course); [discriminate|].
  intros [= <- <-]. split; [reflexivity|].
  rewrite get_enrollment_unfold. simpl. by rewrite lookup_insert_eq.
Qed.


Lemma EnrollmentRead_merge_succeeds stored update :
  is_Some (EnrollmentRead_merge stored update)
  ↔ enrollment_update_accepted update.
Proof.
  unfold enrollment_update_accepted, EnrollmentRead_merge, is_Some.
  destruct update as [su ci s g ce tp pd cd wd n]; simpl.
  destruct su, ci, s; simpl;
    (split; [intros [x Hx]; try discriminate; split_and!; congruence
            |intros (?&?&?); try congruence; eauto]).
Qed.

(** X15. A partial update of a stored enrollment checks one thing about
    its new values, that a [course_id] it sets is a stored course.  With
    that and no required field set to null it succeeds, whether or not the
    target course is active or full and whether or not any person has the
    new [student_uni]; it rewrites that enrollment only and changes no
    course.  A [course_id] that is not stored raises "Course not found",
    a required field set to null a validation error, both with the store
    unchanged. *)
Theorem update_enrollment_checks_course_only
    (st : Store) (k : UUID) (stored : EnrollmentRead.t)
    (update : EnrollmentUpdate.t) :
  enrollments st !! k = Some stored →
  ((∀ B, EnrollmentUpdate.course_id update = SetTo B →
         is_Some (courses st !! B)) →
   enrollment_update_accepted update →
   ∃ merged st',
     update_enrollment k update st = (Returned merged, st') ∧
     enrollments st' !! k = Some merged ∧
     (∀ j, j ≠ k → enrollments st' !! j = enrollments st !! j) ∧
     courses st' = courses st ∧ persons st' = persons st ∧
     EnrollmentRead.id merged = EnrollmentRead.id stored ∧
     (∀ B, EnrollmentUpdate.course_id update = SetTo B →
           EnrollmentRead.course_id merged = B) ∧
     (∀ uni, EnrollmentUpdate.student_uni update = SetTo uni →
             EnrollmentRead.student_uni merged = uni)) ∧
  (∀ B, EnrollmentUpdate.course_id update = SetTo B →
        courses st !! B = None →
        update_enrollment k update st = (Raised (ReferenceError "Course"), st)) ∧
  ((∀ B, EnrollmentUpdate.course_id update = SetTo B →
         is_Some (courses st !! B)) →
   ¬ enrollment_update_accepted update →
   update_enrollment k update st = (Raised ValidationError, st)).
Proof.
  intros Hk. rewrite update_enrollment_unfold, Hk.
  assert (Hcheck : (∀ B, EnrollmentUpdate.course_id update = SetTo B →
                         is_Some (courses st !! B)) →
    match field_value (EnrollmentUpdate.course_id update) with
    | Some new_course_id => negb (member new_course_id (courses st))
    | None => false
    end = false).
  { intros HB. destruct (EnrollmentUpdate.course_id update) as [| |B]; simpl;
      [reflexivity|reflexivity|].
    destruct (HB B eq_refl) as [c Hc]. by rewrite (member_true _ _ _ Hc). }
  split_and!.
  - intros HB Hacc. rewrite (Hcheck HB).
    destruct (proj2 (EnrollmentRead_merge_succeeds stored update) Hacc)
      as [merged Hm].
    rewrite Hm. eexists _, _. split; [reflexivity|]. simpl.
    destruct (EnrollmentRead_merge_keeps _ _ _ Hm) as [Hid Hcid].
    split_and!; try done.
    + apply lookup_insert_eq.
    + intros j Hj. by apply lookup_insert_ne.
    + intros B HB'. rewrite HB' in Hcid. simpl in Hcid. congruence.
    + intros uni Hu. clear -Hm Hu. unfold EnrollmentRead_merge in Hm.
      rewrite Hu in Hm. simpl in Hm.
      repeat match type of Hm with
             | context [merge_required ?a ?b] =>
                 destruct (merge_required a b); simpl in Hm; [|discriminate]
             end.
      by injection Hm as <-.
  - intros B HB Hnone. rewrite HB. simpl.
    by rewrite (member_false _ _ Hnone).
  - intros HB Hno. rewrite (Hcheck HB).
    destruct (EnrollmentRead_merge stored update) as [merged|] eqn:Hm;
      [|reflexivity].
    exfalso. apply Hno, (EnrollmentRead_merge_succeeds stored). by eexists.
Qed.

Lemma EnrollmentRead_merge_empty stored :
  EnrollmentRead_merge stored EnrollmentUpdate.empty = Some stored.
Proof. by destruct stored. Qed.

(** X16. A partial update of a stored enrollment with no field set returns
    the stored record and leaves the store exactly as it was. *)
Theorem update_enrollment_empty_payload
    (st : Store) (k : UUID) (e : EnrollmentRead.t) :
  enrollments st !! k = Some e →
  update_enrollment k EnrollmentUpdate.empty st = (Returned e, st).
Proof.
  intros Hk. rewrite update_enrollment_unfold, Hk, EnrollmentRead_merge_empty.
  simpl. f_equal.
  rewrite insert_id by exact Hk. apply store_eta.
Qed.

(** X17. A full replacement is refused for a full course even when the
    enrollment being replaced already holds a seat in that course: with
    the payload naming the course the stored record references, active
    and at capacity, [replace_enrollment] raises the capacity error and
    changes nothing. *)
Theorem replace_enrollment_in_full_course
    (st : Store) (k : UUID) (stored : EnrollmentRead.t)
    (enrollment : EnrollmentCreate.t) (d : Defaults) (course : CourseRead.t)
    (m : Z) :
  enrollments st !! k = Some stored →
  EnrollmentCreate.course_id enrollment = EnrollmentRead.course_id stored →
  courses st !! EnrollmentRead.course_id stored = Some course →
  CourseRead.is_active course = true →
  CourseRead.valid course →
  CourseRead.max_enrollment course = Some m →
  m ≤ CourseRead.current_enrollment course →
  replace_enrollment k enrollment d st = (Raised CapacityError, st).
Proof.
  intros Hk Hsame Hc Hact Hvalid Hm Hle.
  rewrite replace_enrollment_unfold, Hk, Hsame, Hc, Hact.
  by rewrite (enrollment_full_valid _ _ Hvalid Hm Hle).
Qed.

Lemma set_current_enrollment_same c :
  CourseRead.set_current_enrollment (CourseRead.current_enrollment c) c = c.
Proof. by destruct c. Qed.

Lemma set_current_enrollment_twice n m c :
  CourseRead.set_current_enrollment n (CourseRead.set_current_enrollment m c)
  = CourseRead.set_current_enrollment n c.
Proof. reflexivity. Qed.

(** X18. Creating an enrollment and deleting it again restores the store:
    when [create_enrollment] succeeds under an identifier that was not a
    key of [enrollments], on a course whose counter is not negative, the
    [delete_enrollment] of the new identifier succeeds and the store is
    the one before the creation. *)
Theorem create_then_delete_enrollment_restores
    (st st1 : Store) (enrollment : EnrollmentCreate.t) (d : Defaults)
    (new : EnrollmentRead.t) (course : CourseRead.t) :
  enrollments st !! uuid4 d = None →
  courses st !! EnrollmentCreate.course_id enrollment = Some course →
  0 ≤ CourseRead.current_enrollment course →
  create_enrollment enrollment d st = (Returned new, st1) →
  delete_enrollment (EnrollmentRead.id new) st1 = (Returned tt, st).
Proof.
  intros Hfresh Hc Hcur. rewrite create_enrollment_unfold, Hc.
  destruct (negb (any_uni _ _)); [discriminate|].
  destruct (negb _); [discriminate|].
  destruct (enrollment_full course); [discriminate|].
  intros [= <- <-]. rewrite delete_enrollment_unfold. simpl.
  rewrite ?lookup_insert_eq. simpl. rewrite ?lookup_insert_eq.
  destruct st as [ps cs es]. simpl in *. do 2 f_equal.
  - rewrite insert_insert_eq, set_current_enrollment_twice.
    replace (Z.max 0 (CourseRead.current_enrollment course + 1 - 1))
      with (CourseRead.current_enrollment course) by lia.
    rewrite set_current_enrollment_same. by apply insert_id.
  - rewrite delete_insert_eq. by apply delete_id.
Qed.

(** * Cross-resource endpoints *)

Lemma elem_of_values {A} (d : gmap UUID A) (x : A) :
  x ∈ values d ↔ ∃ k, d !! k = Some x.
Proof.
  unfold values. rewrite list_elem_of_fmap. split.
  - intros ([k y] & -> & Hin). exists k. by apply elem_of_map_to_list.
  - intros (k & Hk). exists (k, x). split; [reflexivity|].
    by apply elem_of_map_to_list.
Qed.

Lemma values_insert_fresh {A} (d : gmap UUID A) k x :
  d !! k = None → values (<[k := x]> d) ≡ₚ x :: values d.
Proof.
  intros Hk. unfold values. by rewrite map_to_list_insert.
Qed.

(** The enrollments listed for a course are as many as [count_refs]
    counts. *)
Lemma length_course_enrollments C (es : gmap UUID EnrollmentRead.t) :
  Z.of_nat (length (filter (λ e, EnrollmentRead.course_id e = C) (values es)))
  = count_refs C es.
Proof.
  unfold count_refs. f_equal.
  induction es as [|k e es Hk IH] using map_ind.
  - unfold values. rewrite map_to_list_empty, map_filter_empty.
    reflexivity.
  - rewrite (values_insert_fresh _ _ _ Hk), filter_cons, map_filter_insert.
    unfold references at 1. simpl.
    destruct (decide (EnrollmentRead.course_id e = C)) as [HeC|HeC].
    + rewrite map_size_insert_None.
      * simpl. by rewrite IH.
      * apply map_lookup_filter_None. by left.
    + rewrite delete_id by exact Hk. exact IH.
Qed.

(** X19. [get_course_enrollments] raises the not-found error when the
    course is not stored.  When it is, the call changes nothing and
    returns exactly the stored enrollments whose [course_id] is that
    course, as many as [count_refs] counts. *)
Theorem get_course_enrollments_behaviour (st : Store) (C : UUID) :
  (courses st !! C = None →
   get_course_enrollments C st = (Raised (NotFoundError "Course"), st)) ∧
  (is_Some (courses st !! C) →
   ∃ l,
     get_course_enrollments C st = (Returned l, st) ∧
     (∀ e, e ∈ l ↔
           (∃ k, enrollments st !! k = Some e) ∧
           EnrollmentRead.course_id e = C) ∧
     Z.of_nat (length l) = count_refs C (enrollments st)).
Proof.
  unfold get_course_enrollments. unfold_M. split.
  - intros Hk. by rewrite (member_false _ _ Hk).
  - intros [c Hc]. rewrite (member_true _ _ _ Hc). simpl.
    eexists. split; [reflexivity|]. split.
    + intros e. rewrite list_elem_of_filter, elem_of_values. tauto.
    + apply length_course_enrollments.
Qed.

(** X20. [get_student_enrollments] raises the not-found error when no
    person has the university identifier.  When one has, the call changes
    nothing and returns exactly the stored enrollments with that
    [student_uni]: the empty list, not an error, when there is none. *)
Theorem get_student_enrollments_behaviour (st : Store) (uni : string) :
  (¬ student_known uni st →
   get_student_enrollments uni st = (Raised (NotFoundError "Student"), st)) ∧
  (student_known uni st →
   ∃ l,
     get_student_enrollments uni st = (Returned l, st) ∧
     (∀ e, e ∈ l ↔
           (∃ k, enrollments st !! k = Some e) ∧
           EnrollmentRead.student_uni e = uni) ∧
     ((∀ k e, enrollments st !! k = Some e →
              EnrollmentRead.student_uni e ≠ uni) → l = [])).
Proof.
  unfold get_student_enrollments. unfold_M. split.
  - intros H%any_uni_false. by rewrite H.
  - intros H%any_uni_true. rewrite H. simpl.
    eexists. split; [reflexivity|].
    assert (Hin : ∀ e, e ∈ enrollments_of_student uni (enrollments st) ↔
                       (∃ k, enrollments st !! k = Some e) ∧
                       EnrollmentRead.student_uni e = uni).
    { intros e. unfold enrollments_of_student.
      rewrite list_elem_of_filter, elem_of_values. tauto. }
    split; [exact Hin|].
    intros Hnone.
    destruct (enrollments_of_student uni (enrollments st)) as [|e l] eqn:El;
      [reflexivity|].
    exfalso. destruct (proj1 (Hin e)) as [[k Hk] He]; [by left|].
    by apply (Hnone k e).
Qed.

Lemma length_omap_le {A B} (f : A → option B) (l : list A) :
  (length (omap f l) ≤ length l)%nat.
Proof.
  induction l as [|x l IH]; [simpl; lia|]. cbn [omap list_omap].
  destruct (f x); simpl; lia.
Qed.

(** X21. [get_student_courses] raises the not-found error when no person
    has the university identifier.  When one has, the call changes
    nothing and returns the stored courses that the student's enrollments
    reference: an enrollment whose [course_id] is not a stored course is
    skipped without error, so the list is at most as long as the list of
    the student's enrollments. *)
Theorem get_student_courses_behaviour (st : Store) (uni : string) :
  (¬ student_known uni st →
   get_student_courses uni st = (Raised (NotFoundError "Student"), st)) ∧
  (student_known uni st →
   ∃ l,
     get_student_courses uni st = (Returned l, st) ∧
     (∀ c, c ∈ l ↔
           ∃ k e, enrollments st !! k = Some e ∧
                  EnrollmentRead.student_uni e = uni ∧
                  courses st !! EnrollmentRead.course_id e = Some c) ∧
     (length l ≤ length (enrollments_of_student uni (enrollments st)))%nat).
Proof.
  unfold get_student_courses. unfold_M. split.
  - intros H%any_uni_false. by rewrite H.
  - intros H%any_uni_true. rewrite H. simpl.
    eexists. split; [reflexivity|]. split.
    + intros c. rewrite list_elem_of_omap. split.
      * intros (cid & Hcid & Hc).
        apply list_elem_of_fmap in Hcid as (e & -> & He).
        unfold enrollments_of_student in He.
        apply list_elem_of_filter in He as [Hu [k Hk]%elem_of_values].
        by exists k, e.
      * intros (k & e & Hk & Hu & Hc).
        exists (EnrollmentRead.course_id e). split; [|exact Hc].
        apply list_elem_of_fmap. exists e. split; [reflexivity|].
        unfold enrollments_of_student.
        apply list_elem_of_filter. split; [exact Hu|].
        apply elem_of_values. by exists k.
    + etrans; [apply length_omap_le|]. by rewrite length_fmap.
Qed.

(** X22. The listing never shows more than the counter: from a store where
    course [C]'s counter is at least the number of enrollments referencing
    it, after any sequence of requests that keeps [C] in sync
    ([keeps_sync]), [get_course_enrollments] succeeds for [C] and returns
    at most [current_enrollment] records. *)
Theorem course_listing_within_counter
    (C : UUID) (ops : list Op) (st : Store) (n : Z) :
  counter C st = Some n →
  count_refs C (enrollments st) ≤ n →
  Forall (keeps_sync C) ops →
  ∃ n' l,
    counter C (run ops st) = Some n' ∧
    get_course_enrollments C (run ops st) = (Returned l, run ops st) ∧
    Z.of_nat (length l) ≤ n'.
Proof.
  intros Hn Hle Hops. revert st n Hn Hle.
  induction Hops as [|op ops Hop Hops IH]; intros st n Hn Hle; simpl.
  - apply counter_Some in Hn as (c & Hc & <-).
    exists (CourseRead.current_enrollment c). eexists.
    unfold counter. rewrite Hc. split; [reflexivity|].
    unfold get_course_enrollments. unfold_M.
    rewrite (member_true _ _ _ Hc). simpl. split; [reflexivity|].
    by rewrite length_course_enrollments.
  - destruct (step_keeps_sync C op st n Hop Hn Hle) as [Hn1 Hle1].
    exact (IH _ _ Hn1 Hle1).
Qed.

(** * The list endpoints *)

Lemma elem_of_keep_if {A P} (param : option P) (test : P → A → bool)
    (results : list A) (x : A) :
  x ∈ keep_if param test results ↔
  x ∈ results ∧ (∀ p, param = Some p → test p x = true).
Proof.
  unfold keep_if. destruct param as [p|].
  - rewrite list_elem_of_filter. split.
    + intros [Ht Hin]. split; [exact Hin|].
      intros p' [= <-]. by apply Is_true_true.
    + intros [Hin Ht]. split; [|exact Hin]. apply Is_true_true. by apply Ht.
  - split; [intros Hin; split; [exact Hin|discriminate]|by intros [Hin _]].
Qed.

Section Listing_properties.

Variable icontains : string → string → bool.

(** X23. [list_courses] never raises and changes nothing.  It returns
    exactly the stored courses that pass every filter given; a filter not
    given puts no constraint.  The instructor filter drops every course
    whose instructor is null or empty, and bounds with
    [max_credits < min_credits] give the empty list. *)
Theorem list_courses_behaviour
    (st : Store) (code title department instructor semester : option string)
    (is_active : option bool) (min_credits max_credits : option Z) :
  ∃ l,
    list_courses icontains code title department instructor semester
      is_active min_credits max_credits st = (Returned l, st) ∧
    (∀ c, c ∈ l ↔
       (∃ k, courses st !! k = Some c) ∧
       (∀ x, code = Some x → CourseRead.code c = x) ∧
       (∀ x, title = Some x → icontains (CourseRead.title c) x = true) ∧
       (∀ x, department = Some x →
             icontains (CourseRead.department c) x = true) ∧
       (∀ x, instructor = Some x →
             ∃ i, CourseRead.instructor c = Some i ∧ i ≠ "" ∧
                  icontains i x = true) ∧
       (∀ x, semester = Some x →
             icontains (CourseRead.semester c) x = true) ∧
       (∀ b, is_active = Some b → CourseRead.is_active c = b) ∧
       (∀ n, min_credits = Some n → n ≤ CourseRead.credits c) ∧
       (∀ n, max_credits = Some n → CourseRead.credits c ≤ n)) ∧
    (∀ a b, min_credits = Some a → max_credits = Some b → b < a → l = []).
Proof.
  unfold list_courses. unfold_M. eexists. split; [reflexivity|].
  match goal with |- ?P ∧ _ => assert (Hin : P) end.
  { intros c. rewrite !elem_of_keep_if, elem_of_values.
    split.
    - intros ((((((((Hst & Hcode) & Htitle) & Hdep) & Hins) & Hsem)
                 & Hact) & Hmin) & Hmax).
      split_and!; try done.
      + intros x Hx. specialize (Hcode x Hx). by apply bool_decide_eq_true in Hcode.
      + intros x Hx. specialize (Hins x Hx). unfold instructor_matches in Hins.
        destruct (CourseRead.instructor c) as [i|]; [|discriminate].
        destruct (decide (i = "")); [discriminate|]. by exists i.
      + intros b Hb. specialize (Hact b Hb). by apply bool_decide_eq_true in Hact.
      + intros n Hn. specialize (Hmin n Hn). by apply Z.leb_le.
      + intros n Hn. specialize (Hmax n Hn). by apply Z.leb_le.
    - intros (Hst & Hcode & Htitle & Hdep & Hins & Hsem & Hact & Hmin & Hmax).
      split_and!; try done.
      + intros x Hx. apply bool_decide_eq_true. by apply Hcode.
      + intros x Hx. destruct (Hins x Hx) as (i & Hi & Hne & Hc).
        unfold instructor_matches. rewrite Hi.
        by destruct (decide (i = "")).
      + intros b Hb. apply bool_decide_eq_true. by apply Hact.
      + intros n Hn. apply Z.leb_le. by apply Hmin.
      + intros n Hn. apply Z.leb_le. by apply Hmax. }
  split; [exact Hin|].
  intros a b Ha Hb Hlt.
  match goal with |- ?l = [] => destruct l as [|c l'] eqn:El end;
    [reflexivity|].
  exfalso.
  destruct (proj1 (Hin c)) as (_ & _ & _ & _ & _ & _ & _ & Hmin & Hmax);
    [by left|].
  specialize (Hmin a Ha). specialize (Hmax b Hb). lia.
Qed.

(** X24. [list_enrollments] never raises and changes nothing.  It returns
    exactly the stored enrollments that pass every filter given.  The
    semester and department filters are tested on the course an
    enrollment references and drop every enrollment whose [course_id] is
    not a stored course. *)
Theorem list_enrollments_behaviour
    (st : Store) (student_uni : option string) (course_id : option UUID)
    (status : option EnrollmentStatus) (semester department : option string) :
  ∃ l,
    list_enrollments icontains student_uni course_id status semester
      department st = (Returned l, st) ∧
    (∀ e, e ∈ l ↔
       (∃ k, enrollments st !! k = Some e) ∧
       (∀ x, student_uni = Some x → EnrollmentRead.student_uni e = x) ∧
       (∀ x, course_id = Some x → EnrollmentRead.course_id e = x) ∧
       (∀ x, status = Some x → EnrollmentRead.status e = x) ∧
       (∀ x, semester = Some x →
             ∃ c, courses st !! EnrollmentRead.course_id e = Some c ∧
                  icontains (CourseRead.semester c) x = true) ∧
       (∀ x, department = Some x →
             ∃ c, courses st !! EnrollmentRead.course_id e = Some c ∧
                  icontains (CourseRead.department c) x = true)).
Proof.
  unfold list_enrollments. unfold_M. eexists. split; [reflexivity|].
  intros e. rewrite !elem_of_keep_if, elem_of_values.
  split.
  - intros (((((Hst & Huni) & Hcid) & Hstatus) & Hsem) & Hdep).
    split_and!; try done.
    + intros x Hx. specialize (Huni x Hx). by apply bool_decide_eq_true in Huni.
    + intros x Hx. specialize (Hcid x Hx). by apply bool_decide_eq_true in Hcid.
    + intros x Hx. specialize (Hstatus x Hx).
      by apply bool_decide_eq_true in Hstatus.
    + intros x Hx. specialize (Hsem x Hx). unfold course_field_matches in Hsem.
      destruct (courses st !! EnrollmentRead.course_id e) as [c|];
        [|discriminate].
      by exists c.
    + intros x Hx. specialize (Hdep x Hx). unfold course_field_matches in Hdep.
      destruct (courses st !! EnrollmentRead.course_id e) as [c|];
        [|discriminate].
      by exists c.
  - intros (Hst & Huni & Hcid & Hstatus & Hsem & Hdep).
    split_and!; try done.
    + intros x Hx. apply bool_decide_eq_true. by apply Huni.
    + intros x Hx. apply bool_decide_eq_true. by apply Hcid.
    + intros x Hx. apply bool_decide_eq_true. by apply Hstatus.
    + intros x Hx. destruct (Hsem x Hx) as (c & Hc & Hm).
      unfold course_field_matches. by rewrite Hc.
    + intros x Hx. destruct (Hdep x Hx) as (c & Hc & Hm).
      unfold course_field_matches. by rewrite Hc.
Qed.

End Listing_properties.

(** * Address endpoints *)

Section Address_properties.

Variables AddressCreate AddressRead AddressUpdate : Type.
Variable AddressCreate_id : AddressCreate → UUID.
Variable AddressRead_of_dump : AddressCreate → Defaults → AddressRead.

(** X25. [create_address] never replaces a stored address.  With an [id]
    that is already a key it raises
    [HTTPException(400, "Address with this ID already exists")] and
    changes nothing; otherwise it stores and returns the new record, which
    [get_address] then returns, adds exactly one key, and either way every
    address stored before is still stored unchanged. *)
Theorem create_address_never_overwrites
    (addresses : gmap UUID AddressRead) (address : AddressCreate)
    (d : Defaults) :
  (is_Some (addresses !! AddressCreate_id address) →
   create_address _ _ AddressCreate_id AddressRead_of_dump address d addresses
   = (Raised (HTTPException 400 "Address with this ID already exists"),
      addresses)) ∧
  (addresses !! AddressCreate_id address = None →
   ∃ addresses',
     create_address _ _ AddressCreate_id AddressRead_of_dump address d
       addresses
     = (Returned (AddressRead_of_dump address d), addresses') ∧
     get_address _ (AddressCreate_id address) addresses'
     = (Returned (AddressRead_of_dump address d), addresses') ∧
     size addresses' = S (size addresses)) ∧
  (∀ k a,
     addresses !! k = Some a →
     (create_address _ _ AddressCreate_id AddressRead_of_dump address d
        addresses).2 !! k = Some a).
Proof.
  unfold create_address, get_address. split_and!.
  - intros [a Ha]. by rewrite (member_true _ _ _ Ha).
  - intros Hnone. rewrite (member_false _ _ Hnone). simpl.
    rewrite lookup_insert_eq. eexists. split; [reflexivity|].
    rewrite (member_true _ _ _ (lookup_insert_eq _ _ _)). simpl.
    rewrite lookup_insert_eq. split; [reflexivity|].
    by apply map_size_insert_None.
  - intros k a Hk.
    destruct (addresses !! AddressCreate_id address) as [a0|] eqn:Hid.
    + by rewrite (member_true _ _ _ Hid).
    + rewrite (member_false _ _ Hid). simpl. rewrite lookup_insert_eq. simpl.
      rewrite lookup_insert_ne; [exact Hk|]. intros <-. congruence.
Qed.

Variable AddressRead_merge : AddressRead → AddressUpdate → option AddressRead.

(** X26. [update_address] raises [HTTPException(404, "Address not found")]
    and changes nothing when the identifier is not stored; whatever its
    outcome, it never adds or removes a key and never changes the address
    stored under another key. *)
Theorem update_address_keeps_keys
    (addresses : gmap UUID AddressRead) (k : UUID) (update : AddressUpdate) :
  (addresses !! k = None →
   update_address _ _ AddressRead_merge k update addresses
   = (Raised (HTTPException 404 "Address not found"), addresses)) ∧
  dom (update_address _ _ AddressRead_merge k update addresses).2
    = dom addresses ∧
  (∀ j, j ≠ k →
        (update_address _ _ AddressRead_merge k update addresses).2 !! j
        = addresses !! j).
Proof.
  unfold update_address.
  destruct (addresses !! k) as [stored|] eqn:Hk.
  - rewrite (member_true _ _ _ Hk). simpl.
    destruct (AddressRead_merge stored update) as [merged|]; simpl.
    + rewrite lookup_insert_eq. simpl. split_and!; [discriminate| |].
      * apply dom_insert_lookup_L. by eexists.
      * intros j Hj. by apply lookup_insert_ne.
    + by split_and!.
  - rewrite (member_false _ _ Hk). simpl. by split_and!.
Qed.

End Address_properties.

(** * Worked instances of the further properties *)

Lemma calculus_valid k : CourseCreate.valid (calculus k).
Proof.
  unfold CourseCreate.valid. simpl.
  split; [lia|]. split; [|lia]. intros m [= <-]. lia.
Defined.

Lemma course_payload_valid k m active :
  1 ≤ m → CourseCreate.valid (course_payload k (Some m) 0 active).
Proof.
  intros Hm. unfold CourseCreate.valid. simpl.
  split; [lia|]. split; [|lia]. intros m' [= <-]. exact Hm.
Defined.

Lemma st_full_valid : courses_valid st_full.
Proof.
  unfold st_full. apply run_courses_valid; [|apply empty_store_valid].
  constructor; [exact I|].
  constructor; [apply course_payload_valid; lia|].
  constructor; [exact I|]. constructor.
Defined.

Lemma st_full_courses :
  courses st_full = {[course_A := course_record course_A (Some 1) 1 true]}.
Proof. vm_compute. reflexivity. Defined.

(** X1 at the store with two courses: [99] is not a key. *)
Lemma course_endpoints_missing_id_witness :
  courses st_courses !! 99%N = None ∧
  get_course 99%N st_courses = (Raised (NotFoundError "Course"), st_courses) ∧
  delete_course 99%N st_courses
    = (Raised (NotFoundError "Course"), st_courses).
Proof.
  assert (Hk : courses st_courses !! 99%N = None) by (vm_compute; reflexivity).
  destruct (course_endpoints_missing_id st_courses 99%N (calculus 99%N)
              (d0 0%N) close_course Hk) as (Hget & _ & _ & Hdel).
  by split_and!.
Defined.

(** X2 at the store with two courses: a third is created and read back. *)
Lemma create_course_then_get_witness :
  ∃ st',
    create_course (calculus 12%N) (d0 0%N) st_courses
      = (Returned (CourseRead_of_dump (calculus 12%N) (d0 0%N)), st') ∧
    get_course 12%N st'
      = (Returned (CourseRead_of_dump (calculus 12%N) (d0 0%N)), st').
Proof.
  destruct (create_course_then_get st_courses (calculus 12%N) (d0 0%N))
    as (st' & Hc & Hg & _).
  exists st'. by split.
Defined.

(** X3 at the store with enrollment [100]: the empty update of
    [course_A]. *)
Lemma update_course_empty_payload_witness :
  courses st_enrolled !! course_A
    = Some (course_record course_A (Some 30) 1 true) ∧
  update_course course_A CourseUpdate.empty st_enrolled
    = (Returned (course_record course_A (Some 30) 1 true), st_enrolled).
Proof.
  assert (Hk : courses st_enrolled !! course_A
               = Some (course_record course_A (Some 30) 1 true))
    by (vm_compute; reflexivity).
  split; [exact Hk|]. by apply update_course_empty_payload.
Defined.

(** X4 at the same store: closing [course_A] is accepted and keeps its
    counter. *)
Lemma update_course_accepted_iff_witness :
  courses st_enrolled !! course_A
    = Some (course_record course_A (Some 30) 1 true) ∧
  course_update_accepted close_course ∧
  ∃ merged st',
    update_course course_A close_course st_enrolled = (Returned merged, st') ∧
    CourseRead.current_enrollment merged = 1.
Proof.
  assert (Hk : courses st_enrolled !! course_A
               = Some (course_record course_A (Some 30) 1 true))
    by (vm_compute; reflexivity).
  assert (Hacc : course_update_accepted close_course)
    by (unfold course_update_accepted; simpl; split_and!; discriminate).
  split_and!; [exact Hk|exact Hacc|].
  destruct (update_course_accepted_iff st_enrolled course_A _ close_course Hk)
    as [Hok _].
  destruct (Hok Hacc)
    as (merged & st' & Hrun & _ & _ & _ & _ & _ & Hcur & _).
  exists merged, st'. split; [exact Hrun|]. rewrite Hcur. reflexivity.
Defined.

(** X5 at the same store: [course_A] is deleted, enrollment [100] stays. *)
Lemma delete_course_leaves_enrollments_witness :
  courses st_enrolled !! course_A
    = Some (course_record course_A (Some 30) 1 true) ∧
  ∃ st1,
    delete_course course_A st_enrolled = (Returned tt, st1) ∧
    enrollments st1 = enrollments st_enrolled ∧
    get_course course_A st1 = (Raised (NotFoundError "Course"), st1).
Proof.
  assert (Hk : courses st_enrolled !! course_A
               = Some (course_record course_A (Some 30) 1 true))
    by (vm_compute; reflexivity).
  split; [exact Hk|].
  destruct (delete_course_leaves_enrollments st_enrolled course_A _ Hk)
    as (st1 & Hrun & _ & Hen & _ & Hget & _).
  exists st1. by split_and!.
Defined.

(** X6 at the same store: the payload carries [77], the path [course_A]. *)
Lemma replace_course_ignores_payload_id_witness :
  courses st_enrolled !! course_A
    = Some (course_record course_A (Some 30) 1 true) ∧
  replace_course course_A (CourseCreate_with_id 77%N (calculus 12%N))
    (d0 0%N) st_enrolled
  = replace_course course_A (calculus 12%N) (d0 0%N) st_enrolled.
Proof.
  assert (Hk : courses st_enrolled !! course_A
               = Some (course_record course_A (Some 30) 1 true))
    by (vm_compute; reflexivity).
  split; [exact Hk|].
  by destruct (replace_course_ignores_payload_id st_enrolled course_A 77%N
                 (calculus 12%N) (d0 0%N) _ Hk) as [Heq _].
Defined.

(** X7 along [moved_trace]. *)
Lemma reachable_keys_match_ids_witness :
  keys_match_ids (run moved_trace empty_store).
Proof. apply reachable_keys_match_ids. Defined.

(** X8 for a creation followed by a partial update. *)
Lemma reachable_courses_valid_witness :
  Forall op_valid
    [CreateCourse (calculus 12%N) (d0 0%N); UpdateCourse 12%N close_course] ∧
  courses_valid
    (run [CreateCourse (calculus 12%N) (d0 0%N);
          UpdateCourse 12%N close_course] empty_store).
Proof.
  assert (Hops : Forall op_valid
            [CreateCourse (calculus 12%N) (d0 0%N);
             UpdateCourse 12%N close_course]).
  { constructor; [apply calculus_valid|].
    constructor; [|constructor].
    split; intros v Hv; discriminate. }
  split; [exact Hops|]. by apply reachable_courses_valid.
Defined.

(** X9 at the store whose course is full: another creation, a deletion and
    a creation again. *)
Lemma run_within_capacity_witness :
  courses_valid st_full ∧ within_capacity st_full ∧
  within_capacity
    (run [CreateEnrollment (enrollment_payload "abc1234" course_A) (d0 101%N);
          DeleteEnrollment 100%N;
          CreateEnrollment (enrollment_payload "abc1234" course_A) (d0 102%N)]
       st_full).
Proof.
  assert (Hcap : within_capacity st_full).
  { unfold within_capacity. rewrite st_full_courses.
    apply map_Forall_singleton. intros m [= <-]. simpl. lia. }
  split_and!; [exact st_full_valid|exact Hcap|].
  apply run_within_capacity; [repeat constructor|exact st_full_valid|exact Hcap].
Defined.

(** X10 at the store with enrollment [100]: [course_A] is closed, the next
    enrollment is refused. *)
Lemma deactivated_course_rejects_enrollment_witness :
  student_known "abc1234" st_enrolled ∧
  ∃ merged st1,
    update_course course_A close_course st_enrolled = (Returned merged, st1) ∧
    create_enrollment (enrollment_payload "abc1234" course_A) (d0 101%N) st1
      = (Raised PreconditionError, st1).
Proof.
  assert (Hs : student_known "abc1234" st_enrolled)
    by (apply any_uni_true; vm_compute; reflexivity).
  split; [exact Hs|].
  destruct (update_course course_A close_course st_enrolled)
    as [[e|merged] st1] eqn:Hupd; [vm_compute in Hupd; discriminate|].
  exists merged, st1. split; [reflexivity|].
  by apply (deactivated_course_rejects_enrollment st_enrolled st1 course_A
              close_course merged).
Defined.

(** X11 at the store whose course is full: the capacity is cleared, the
    next enrollment is admitted and the counter becomes [2]. *)
Lemma cleared_capacity_admits_enrollment_witness :
  student_known "abc1234" st_full ∧
  courses st_full !! course_A = Some (course_record course_A (Some 1) 1 true) ∧
  ∃ merged st1 new st2,
    update_course course_A lift_capacity st_full = (Returned merged, st1) ∧
    create_enrollment (enrollment_payload "abc1234" course_A) (d0 101%N) st1
      = (Returned new, st2) ∧
    counter course_A st2 = Some 2.
Proof.
  assert (Hs : student_known "abc1234" st_full)
    by (apply any_uni_true; vm_compute; reflexivity).
  assert (Hk : courses st_full !! course_A
               = Some (course_record course_A (Some 1) 1 true))
    by (vm_compute; reflexivity).
  split_and!; [exact Hs|exact Hk|].
  destruct (update_course course_A lift_capacity st_full)
    as [[e|merged] st1] eqn:Hupd; [vm_compute in Hupd; discriminate|].
  destruct (cleared_capacity_admits_enrollment st_full st1 course_A _ merged
              lift_capacity (enrollment_payload "abc1234" course_A)
              (d0 101%N) Hk eq_refl Hupd eq_refl eq_refl eq_refl Hs)
    as (new & st2 & Hrun & Hcnt).
  exists merged, st1, new, st2. by split_and!.
Defined.

(** X12 at the store with two courses and no enrollment. *)
Lemma enrollment_endpoints_missing_id_witness :
  enrollments st_courses !! 100%N = None ∧
  get_enrollment 100%N st_courses
    = (Raised (NotFoundError "Enrollment"), st_courses) ∧
  update_enrollment 100%N move_to_B st_courses
    = (Raised (NotFoundError "Enrollment"), st_courses).
Proof.
  assert (Hk : enrollments st_courses !! 100%N = None)
    by (vm_compute; reflexivity).
  destruct (enrollment_endpoints_missing_id st_courses 100%N
              (enrollment_payload "abc1234" course_A) (d0 0%N) move_to_B Hk)
    as (Hget & _ & Hupd & _).
  by split_and!.
Defined.

(** X13 at the same store: the first enrollment is created and read
    back. *)
Lemma create_enrollment_then_get_witness :
  ∃ new st',
    create_enrollment (enrollment_payload "abc1234" course_A) (d0 100%N)
      st_courses = (Returned new, st') ∧
    get_enrollment 100%N st' = (Returned new, st').
Proof.
  destruct (create_enrollment (enrollment_payload "abc1234" course_A)
              (d0 100%N) st_courses) as [[e|new] st'] eqn:Hrun;
    [vm_compute in Hrun; discriminate|].
  destruct (create_enrollment_then_get _ _ _ _ _ Hrun) as [Hid Hget].
  exists new, st'. split; [reflexivity|]. by rewrite Hid in Hget.
Defined.


(** X15 at the store with enrollment [100]: it is moved to [course_B]. *)
Lemma update_enrollment_checks_course_only_witness :
  enrollments st_enrolled !! 100%N
    = Some (enrollment_record 100%N "abc1234" course_A) ∧
  enrollment_update_accepted move_to_B ∧
  ∃ merged st',
    update_enrollment 100%N move_to_B st_enrolled = (Returned merged, st') ∧
    EnrollmentRead.course_id merged = course_B ∧
    courses st' = courses st_enrolled.
Proof.
  assert (Hk : enrollments st_enrolled !! 100%N
               = Some (enrollment_record 100%N "abc1234" course_A))
    by (vm_compute; reflexivity).
  assert (Hacc : enrollment_update_accepted move_to_B)
    by (unfold enrollment_update_accepted; simpl; split_and!; discriminate).
  split_and!; [exact Hk|exact Hacc|].
  destruct (update_enrollment_checks_course_only st_enrolled 100%N _ move_to_B
              Hk) as (Hok & _ & _).
  destruct Hok as (merged & st' & Hrun & _ & _ & Hc & _ & _ & Hcid & _).
  - intros B [= <-]. vm_compute. by eexists.
  - exact Hacc.
  - exists merged, st'. split_and!; [exact Hrun| |exact Hc].
    by apply Hcid.
Defined.

(** X16 at the same store: the empty update of enrollment [100]. *)
Lemma update_enrollment_empty_payload_witness :
  enrollments st_enrolled !! 100%N
    = Some (enrollment_record 100%N "abc1234" course_A) ∧
  update_enrollment 100%N EnrollmentUpdate.empty st_enrolled
    = (Returned (enrollment_record 100%N "abc1234" course_A), st_enrolled).
Proof.
  assert (Hk : enrollments st_enrolled !! 100%N
               = Some (enrollment_record 100%N "abc1234" course_A))
    by (vm_compute; reflexivity).
  split; [exact Hk|]. by apply update_enrollment_empty_payload.
Defined.

(** X17 at the store whose course is full: enrollment [100], which holds
    the only seat, cannot be replaced. *)
Lemma replace_enrollment_in_full_course_witness :
  enrollments st_full !! 100%N
    = Some (enrollment_record 100%N "abc1234" course_A) ∧
  courses st_full !! course_A = Some (course_record course_A (Some 1) 1 true) ∧
  replace_enrollment 100%N (enrollment_payload "abc1234" course_A) (d0 0%N)
    st_full = (Raised CapacityError, st_full).
Proof.
  assert (Hk : enrollments st_full !! 100%N
               = Some (enrollment_record 100%N "abc1234" course_A))
    by (vm_compute; reflexivity).
  assert (Hc : courses st_full !! course_A
               = Some (course_record course_A (Some 1) 1 true))
    by (vm_compute; reflexivity).
  split_and!; [exact Hk|exact Hc|].
  apply (replace_enrollment_in_full_course st_full 100%N _
           (enrollment_payload "abc1234" course_A) (d0 0%N)
           (course_record course_A (Some 1) 1 true) 1 Hk eq_refl Hc eq_refl).
  - apply course_record_valid; lia.
  - reflexivity.
  - simpl. lia.
Defined.

(** X18 at the store with two courses: create enrollment [100], delete it,
    and the store is the one before. *)
Lemma create_then_delete_enrollment_restores_witness :
  enrollments st_courses !! 100%N = None ∧
  ∃ new st1,
    create_enrollment (enrollment_payload "abc1234" course_A) (d0 100%N)
      st_courses = (Returned new, st1) ∧
    delete_enrollment (EnrollmentRead.id new) st1 = (Returned tt, st_courses).
Proof.
  assert (Hf : enrollments st_courses !! 100%N = None)
    by (vm_compute; reflexivity).
  assert (Hc : courses st_courses !! course_A
               = Some (course_record course_A (Some 30) 0 true))
    by (vm_compute; reflexivity).
  split; [exact Hf|].
  destruct (create_enrollment (enrollment_payload "abc1234" course_A)
              (d0 100%N) st_courses) as [[e|new] st1] eqn:Hrun;
    [vm_compute in Hrun; discriminate|].
  exists new, st1. split; [reflexivity|].
  apply (create_then_delete_enrollment_restores st_courses st1
           (enrollment_payload "abc1234" course_A) (d0 100%N) new
           (course_record course_A (Some 30) 0 true) Hf Hc);
    [simpl; lia|exact Hrun].
Defined.

(** X19 at the store with enrollment [100] in [course_A]: one record. *)
Lemma get_course_enrollments_behaviour_witness :
  ∃ l,
    get_course_enrollments course_A st_enrolled = (Returned l, st_enrolled) ∧
    Z.of_nat (length l) = 1.
Proof.
  destruct (get_course_enrollments_behaviour st_enrolled course_A)
    as [_ Hok].
  destruct Hok as (l & Hrun & _ & Hlen).
  - vm_compute. by eexists.
  - exists l. split; [exact Hrun|]. rewrite Hlen. vm_compute. reflexivity.
Defined.

(** X20 at the store with two courses and no enrollment: the empty list. *)
Lemma get_student_enrollments_behaviour_witness :
  student_known "abc1234" st_courses ∧
  get_student_enrollments "abc1234" st_courses = (Returned [], st_courses).
Proof.
  split; [exact alice_known_st_courses|].
  destruct (get_student_enrollments_behaviour st_courses "abc1234")
    as [_ Hok].
  destruct (Hok alice_known_st_courses) as (l & Hrun & _ & Hnone).
  rewrite Hrun. f_equal. f_equal. apply Hnone.
  intros k e Hk. vm_compute in Hk. discriminate.
Defined.

(** X21 for an unknown student. *)
Lemma get_student_courses_behaviour_witness :
  ¬ student_known "zz9999" st_enrolled ∧
  get_student_courses "zz9999" st_enrolled
    = (Raised (NotFoundError "Student"), st_enrolled).
Proof.
  assert (Hs : ¬ student_known "zz9999" st_enrolled)
    by (apply any_uni_false; vm_compute; reflexivity).
  split; [exact Hs|].
  by destruct (get_student_courses_behaviour st_enrolled "zz9999")
    as [Hno _]; apply Hno.
Defined.

(** X22 at the store with two courses, along [sync_trace]. *)
Lemma course_listing_within_counter_witness :
  counter course_A st_courses = Some 0 ∧
  count_refs course_A (enrollments st_courses) ≤ 0 ∧
  Forall (keeps_sync course_A) sync_trace ∧
  ∃ n' l,
    counter course_A (run sync_trace st_courses) = Some n' ∧
    get_course_enrollments course_A (run sync_trace st_courses)
      = (Returned l, run sync_trace st_courses) ∧
    Z.of_nat (length l) ≤ n'.
Proof.
  assert (Hn : counter course_A st_courses = Some 0)
    by (vm_compute; reflexivity).
  assert (Hle : count_refs course_A (enrollments st_courses) ≤ 0)
    by (vm_compute; discriminate).
  assert (Hops : Forall (keeps_sync course_A) sync_trace)
    by (repeat constructor).
  split_and!; [exact Hn|exact Hle|exact Hops|].
  exact (course_listing_within_counter course_A sync_trace st_courses 0
           Hn Hle Hops).
Defined.

(** X23 with equality as the substring test: contradictory credit bounds. *)
Lemma list_courses_behaviour_witness :
  list_courses (λ h n, bool_decide (h = n)) None None None None None None
    (Some 5) (Some 2) st_courses = (Returned [], st_courses).
Proof.
  destruct (list_courses_behaviour (λ h n, bool_decide (h = n)) st_courses
              None None None None None None (Some 5) (Some 2))
    as (l & Hrun & _ & Hempty).
  rewrite Hrun. f_equal. f_equal. apply (Hempty 5 2); [reflexivity..|lia].
Defined.

(** X24 with equality as the substring test: no filter, one enrollment. *)
Lemma list_enrollments_behaviour_witness :
  ∃ l,
    list_enrollments (λ h n, bool_decide (h = n)) None None None None None
      st_enrolled = (Returned l, st_enrolled) ∧
    enrollment_record 100%N "abc1234" course_A ∈ l.
Proof.
  destruct (list_enrollments_behaviour (λ h n, bool_decide (h = n))
              st_enrolled None None None None None) as (l & Hrun & Hin).
  exists l. split; [exact Hrun|]. apply Hin.
  split_and!; try discriminate.
  exists 100%N. vm_compute. reflexivity.
Defined.

(** X25 with addresses that are a pair of an identifier and a city. *)
Lemma create_address_never_overwrites_witness :
  let addresses : gmap UUID string := {[ 7%N := "Paris" ]} in
  create_address (UUID * string) string fst (λ a _, a.2)
    (7%N, "Rome") (d0 0%N) addresses
  = (Raised (HTTPException 400 "Address with this ID already exists"),
     addresses).
Proof.
  intros addresses.
  destruct (create_address_never_overwrites (UUID * string) string fst
              (λ a _, a.2) addresses (7%N, "Rome") (d0 0%N)) as (Hdup & _).
  apply Hdup. vm_compute. by eexists.
Defined.

(** X26 with the same addresses and a merge that takes the new city. *)
Lemma update_address_keeps_keys_witness :
  let addresses : gmap UUID string := {[ 7%N := "Paris" ]} in
  update_address string string (λ _ u, Some u) 8%N "Rome" addresses
  = (Raised (HTTPException 404 "Address not found"), addresses).
Proof.
  intros addresses.
  destruct (update_address_keeps_keys string string (λ _ u, Some u)
              addresses 8%N "Rome") as (Hmiss & _).
  apply Hmiss. vm_compute. reflexivity.
Defined.
